(** * Cost Explorer request handler: a shallow embedding of [code_explorer.py]

    The development follows the source file top-down: Python string
    helpers, calendar dates and [datetime.strptime], binary64 floats with
    [float()], [round(x, 2)] and [format(x, '.2f')], [json.dumps], and then
    the four functions of the program: [get_aws_billing_data],
    [format_table], [build_filters] and [lambda_handler].

    Conventions.
    - A Python [str] is a [string]; a character is a code point below 256.
    - A Python [int] is a [Z]; a length is a [nat].
    - A Python [float] is a [pyfloat]: an IEEE 754 binary64 value.
    - Exceptions are values of [exn]; code that can raise returns an
      [outcome]; code that also reads the clock or calls the Cost Explorer
      client lives in the monad [M]. *)

From Stdlib Require Import ZArith List String Ascii Bool Lia.
From Stdlib Require Import Sorting.Permutation Sorting.Sorted.
From Stdlib Require Import DecimalString.
Import ListNotations.

Local Open Scope string_scope.
Local Open Scope Z_scope.

Set Warnings "-register-all".

(** ** Python strings *)

Module PyStr.

Definition code (c : ascii) : Z := Z.of_N (N_of_ascii c).

Definition chr (n : Z) : ascii := ascii_of_N (Z.to_N n).

Definition len (s : string) : nat := String.length s.

Definition newline : string := String (chr 10) "".

(** [sep.join(parts)] *)
Fixpoint join (sep : string) (parts : list string) : string :=
  match parts with
  | [] => ""
  | [p] => p
  | p :: rest => p ++ sep ++ join sep rest
  end.

(** [s.split(sep)] for a one-character separator: the result is never
    empty, and an empty field is kept. *)
Fixpoint split (sep : ascii) (s : string) : list string :=
  match s with
  | EmptyString => [""]
  | String c r =>
      if Ascii.eqb c sep then "" :: split sep r
      else match split sep r with
           | h :: t => String c h :: t
           | [] => [String c ""]
           end
  end.

(** [s.startswith(p)] *)
Definition startswith (p s : string) : bool := String.prefix p s.

(** [s[n:]] *)
Fixpoint drop (n : nat) (s : string) : string :=
  match n, s with
  | O, _ => s
  | S n', String _ r => drop n' r
  | S _, EmptyString => ""
  end.

(** [c * n] for a one-character string *)
Fixpoint replicate (n : nat) (c : ascii) : string :=
  match n with
  | O => ""
  | S n' => String c (replicate n' c)
  end.

(** [s.ljust(w)] and [s.rjust(w)]: pad with spaces, never truncate. *)
Definition ljust (w : nat) (s : string) : string :=
  s ++ replicate (w - len s) " ".

Definition rjust (w : nat) (s : string) : string :=
  replicate (w - len s) " " ++ s.

Definition lower_char (c : ascii) : ascii :=
  let n := code c in
  if ((65 <=? n) && (n <=? 90))
     || ((192 <=? n) && (n <=? 222) && negb (n =? 215))
  then chr (n + 32) else c.

(** [s.lower()] *)
Fixpoint lower (s : string) : string :=
  match s with
  | EmptyString => ""
  | String c r => String (lower_char c) (lower r)
  end.

Definition is_digit (c : ascii) : bool :=
  let n := code c in (48 <=? n) && (n <=? 57).

Definition digit_val (c : ascii) : Z := code c - 48.

Definition digit_char (d : Z) : ascii := chr (48 + d).

Definition hex_char (d : Z) : ascii :=
  if d <? 10 then chr (48 + d) else chr (87 + d).

Definition contains (c : ascii) (s : string) : bool :=
  existsb (Ascii.eqb c) (list_ascii_of_string s).

(** [str(n)] for a non-negative [int] *)
Definition of_nonneg (n : Z) : string :=
  NilZero.string_of_uint (N.to_uint (Z.to_N n)).

Definition backslash : ascii := chr 92.
Definition dquote : ascii := chr 34.
Definition squote : ascii := chr 39.

Definition escaped (c : ascii) : string := String backslash (String c "").

(** One character of [repr(s)], inside quotes [q]. *)
Definition repr_char (q c : ascii) : string :=
  let n := code c in
  if n =? 92 then escaped backslash
  else if Ascii.eqb c q then escaped q
  else if n =? 9 then escaped "t"
  else if n =? 10 then escaped "n"
  else if n =? 13 then escaped "r"
  else if (n <? 32) || (n =? 127) || ((128 <=? n) && (n <? 161)) || (n =? 173)
       then String backslash
              (String "x" (String (hex_char (n / 16))
                             (String (hex_char (n mod 16)) "")))
  else String c "".

Fixpoint repr_body (q : ascii) (s : string) : string :=
  match s with
  | EmptyString => ""
  | String c r => repr_char q c ++ repr_body q r
  end.

(** [repr(s)], which is what [%r] interpolates: single quotes unless the
    text has a single quote and no double quote. *)
Definition repr (s : string) : string :=
  let q := if contains squote s && negb (contains dquote s)
           then dquote else squote in
  String q (repr_body q s ++ String q "").

End PyStr.

(** ** Exceptions and outcomes *)

Inductive exn_class :=
| ValueError
| OverflowError
| IndexError
| RuntimeError
| ClientError.   (* any other [Exception] subclass, e.g. raised by botocore *)

(** An exception instance: its class and [str(e)]. *)
Record exn := Exn { exn_kind : exn_class; exn_str : string }.

Inductive outcome (A : Type) :=
| Returned (a : A)
| Raised (e : exn).

Arguments Returned {A} a.
Arguments Raised {A} e.

Definition is_ValueError (e : exn) : bool :=
  match exn_kind e with ValueError => true | _ => false end.

(** ** Calendar dates ([datetime.date], time of day left out) *)

Record date := Date { year : Z; month : Z; day : Z }.

Definition is_leap (y : Z) : bool :=
  (y mod 4 =? 0) && (negb (y mod 100 =? 0) || (y mod 400 =? 0)).

Definition days_in_month (y m : Z) : Z :=
  if m =? 2 then (if is_leap y then 29 else 28)
  else if (m =? 4) || (m =? 6) || (m =? 9) || (m =? 11) then 30
  else 31.

Definition MINYEAR : Z := 1.
Definition MAXYEAR : Z := 9999.

Definition valid_date (d : date) : bool :=
  (MINYEAR <=? year d) && (year d <=? MAXYEAR) &&
  (1 <=? month d) && (month d <=? 12) &&
  (1 <=? day d) && (day d <=? days_in_month (year d) (month d)).

(** The constructor [date(year, month, day)] as [_strptime] calls it: the
    month and the lower bound of the day are already guaranteed by the
    regular expression. *)
Definition datetime_date (y m d : Z) : outcome date :=
  if (y <? MINYEAR) || (MAXYEAR <? y)
  then Raised (Exn ValueError ("year " ++ PyStr.of_nonneg y ++ " is out of range"))
  else if (m <? 1) || (12 <? m)
  then Raised (Exn ValueError "month must be in 1..12")
  else if (d <? 1) || (days_in_month y m <? d)
  then Raised (Exn ValueError "day is out of range for month")
  else Returned (Date y m d).

(** The day count of the proleptic Gregorian calendar, [d.toordinal()]. *)
Definition days_before_year (y : Z) : Z :=
  let p := y - 1 in p * 365 + p / 4 - p / 100 + p / 400.

Definition days_before_month (y m : Z) : Z :=
  match m with
  | 2 => 31 | 3 => 59 | 4 => 90 | 5 => 120 | 6 => 151 | 7 => 181
  | 8 => 212 | 9 => 243 | 10 => 273 | 11 => 304 | 12 => 334
  | _ => 0
  end
  + (if (2 <? m) && is_leap y then 1 else 0).

Definition toordinal (d : date) : Z :=
  days_before_year (year d) + days_before_month (year d) (month d) + day d.

(** Comparison of two dates, as [datetime.__gt__] at midnight. *)
Definition date_gt (a b : date) : bool :=
  (year b <? year a) ||
  ((year b =? year a) &&
   ((month b <? month a) || ((month b =? month a) && (day b <? day a)))).

(** [d.replace(day=1)] *)
Definition replace_day_1 (d : date) : date := Date (year d) (month d) 1.

(** [d - timedelta(days=1)]; below [date.min] the subtraction overflows. *)
Definition minus_one_day (d : date) : outcome date :=
  if 1 <? day d then Returned (Date (year d) (month d) (day d - 1))
  else if 1 <? month d
  then Returned (Date (year d) (month d - 1) (days_in_month (year d) (month d - 1)))
  else if MINYEAR <? year d then Returned (Date (year d - 1) 12 31)
  else Raised (Exn OverflowError "date value out of range").

Definition pad2 (n : Z) : string :=
  String (PyStr.digit_char (n / 10)) (String (PyStr.digit_char (n mod 10)) "").

Definition pad4 (n : Z) : string :=
  String (PyStr.digit_char (n / 1000))
    (String (PyStr.digit_char (n / 100 mod 10)) (pad2 (n mod 100))).

(** [d.strftime('%Y-%m-%d')].  The year is written with four digits, which
    is what every platform does from the year 1000 on. *)
Definition strftime (d : date) : string :=
  pad4 (year d) ++ "-" ++ pad2 (month d) ++ "-" ++ pad2 (day d).

(** ** [datetime.strptime(s, '%Y-%m-%d')]

    [_strptime] compiles the format to the regular expression
    [(?P<Y>\d\d\d\d)-(?P<m>1[0-2]|0[1-9]|[1-9])-(?P<d>3[0-1]|[1-2]\d|0[1-9]|[1-9]| [1-9])],
    matches it at the start of the text, requires the match to cover the
    whole text, and builds the date.  A group below returns its matches in
    the order the regular expression tries its alternatives, each with the
    value read and the text left. *)

Module Strptime.

Import PyStr.

Definition in_range (lo hi : Z) (c : ascii) : bool :=
  (lo <=? code c) && (code c <=? hi).

(** [\d\d\d\d] *)
Definition group_Y (s : string) : list (Z * string) :=
  match s with
  | String a (String b (String c (String d r))) =>
      if is_digit a && is_digit b && is_digit c && is_digit d
      then [(1000 * digit_val a + 100 * digit_val b
             + 10 * digit_val c + digit_val d, r)]
      else []
  | _ => []
  end.

(** [1[0-2]|0[1-9]|[1-9]] *)
Definition group_m (s : string) : list (Z * string) :=
  (match s with
   | String a (String b r) =>
       if (code a =? 49) && in_range 48 50 b
       then [(10 + digit_val b, r)] else []
   | _ => []
   end) ++
  (match s with
   | String a (String b r) =>
       if (code a =? 48) && in_range 49 57 b
       then [(digit_val b, r)] else []
   | _ => []
   end) ++
  (match s with
   | String a r => if in_range 49 57 a then [(digit_val a, r)] else []
   | _ => []
   end).

(** [3[0-1]|[1-2]\d|0[1-9]|[1-9]| [1-9]] *)
Definition group_d (s : string) : list (Z * string) :=
  (match s with
   | String a (String b r) =>
       if (code a =? 51) && in_range 48 49 b
       then [(30 + digit_val b, r)] else []
   | _ => []
   end) ++
  (match s with
   | String a (String b r) =>
       if in_range 49 50 a && is_digit b
       then [(10 * digit_val a + digit_val b, r)] else []
   | _ => []
   end) ++
  (match s with
   | String a (String b r) =>
       if (code a =? 48) && in_range 49 57 b
       then [(digit_val b, r)] else []
   | _ => []
   end) ++
  (match s with
   | String a r => if in_range 49 57 a then [(digit_val a, r)] else []
   | _ => []
   end) ++
  (match s with
   | String a (String b r) =>
       if (code a =? 32) && in_range 49 57 b
       then [(digit_val b, r)] else []
   | _ => []
   end).

(** The literal [-] of the format. *)
Definition dash (s : string) : list string :=
  match s with
  | String a r => if code a =? 45 then [r] else []
  | _ => []
  end.

(** All the ways [(?P<m>...)-(?P<d>...)] matches at the start of [s], in
    backtracking order. *)
Definition matches_m_d (s : string) : list (Z * Z * string) :=
  flat_map (fun '(m, s3) =>
    flat_map (fun s4 =>
      map (fun '(d, s5) => (m, d, s5)) (group_d s4))
      (dash s3))
    (group_m s).

(** All the ways the whole expression matches at the start of [s], in
    backtracking order; [re.match] returns the first. *)
Definition matches (s : string) : list (Z * Z * Z * string) :=
  flat_map (fun '(y, s1) =>
    flat_map (fun s2 =>
      map (fun '(m, d, s5) => (y, m, d, s5)) (matches_m_d s2))
      (dash s1))
    (group_Y s).

Definition format : string := "%Y-%m-%d".

Definition strptime (s : string) : outcome date :=
  match matches s with
  | [] =>
      Raised (Exn ValueError
                ("time data " ++ repr s ++ " does not match format "
                 ++ repr format))
  | (y, m, d, rest) :: _ =>
      match rest with
      | EmptyString => datetime_date y m d
      | _ => Raised (Exn ValueError ("unconverted data remains: " ++ rest))
      end
  end.

End Strptime.

Definition strptime := Strptime.strptime.

(** ** Binary64 floats

    A finite [float] is [(-1)^neg * m * 2^e] with [0 <= m < 2^53] and
    [-1074 <= e <= 971]; the functions below produce the normal form in
    which [2^52 <= m] unless [e = -1074].  Conversions between decimal text
    and floats are correctly rounded (nearest, ties to even), as CPython's
    [dtoa.c] does them. *)

Module PyFloat.

Inductive pyfloat :=
| FNan
| FInf (neg : bool)
| FFin (neg : bool) (m e : Z).

Definition emin : Z := -1074.
Definition emax : Z := 971.

(** The integer nearest to [n / d], a tie going to the even one
    ([0 <= n], [0 < d]). *)
Definition div_half_even (n d : Z) : Z :=
  let q := n / d in
  let r := n mod d in
  match 2 * r ?= d with
  | Lt => q
  | Gt => q + 1
  | Eq => if Z.even q then q else q + 1
  end.

(** The float nearest to the rational [n / d] ([0 <= n], [0 < d]) with
    the given sign: what [strtod] returns for a decimal of that value.
    Every float is a multiple of [2^emin], so the work is done on
    [n * 2^1074 / d] with a shift [s = e - emin] that is never negative:
    the shift is chosen to leave at most 53 bits, the quotient is rounded
    to the nearest integer (ties to even), and a mantissa that rounds up
    to [2^53] moves to the next exponent. *)
Definition of_ratio (neg : bool) (n d : Z) : pyfloat :=
  if n =? 0 then FFin neg 0 emin
  else
    let scaled := n * 2 ^ 1074 in
    let s0 := Z.max 0 (Z.log2 scaled - Z.log2 d - 53) in
    let s1 := if scaled <? 2 ^ 53 * (d * 2 ^ s0) then s0 else s0 + 1 in
    let m1 := div_half_even scaled (d * 2 ^ s1) in
    let s := if m1 =? 2 ^ 53 then s1 + 1 else s1 in
    let m := if m1 =? 2 ^ 53 then 2 ^ 52 else m1 in
    if emax - emin <? s then FInf neg else FFin neg m (s + emin).

(** The magnitude of a finite float as a fraction. *)
Definition numer (m e : Z) : Z := if 0 <=? e then m * 2 ^ e else m.
Definition denom (e : Z) : Z := if 0 <=? e then 1 else 2 ^ (- e).

(** Order: every float but NaN is ranked by its exact value scaled by
    [2^1074], the infinities beyond every finite value. *)
Definition rank (x : pyfloat) : Z :=
  match x with
  | FNan => 0
  | FInf neg => if neg then - 2 ^ 2100 else 2 ^ 2100
  | FFin neg m e => if neg then - (m * 2 ^ (e - emin)) else m * 2 ^ (e - emin)
  end.

Definition is_nan (x : pyfloat) : bool :=
  match x with FNan => true | _ => false end.

(** [x < y] and [x == y] on floats: false whenever a NaN is involved. *)
Definition lt (x y : pyfloat) : bool :=
  negb (is_nan x) && negb (is_nan y) && (rank x <? rank y).

Definition eq (x y : pyfloat) : bool :=
  negb (is_nan x) && negb (is_nan y) && (rank x =? rank y).

(** [x <= y] *)
Definition le (x y : pyfloat) : bool :=
  negb (is_nan x) && negb (is_nan y) && (rank x <=? rank y).

(** *** [round(x, 2)] *)

(** [|x| * 100] rounded to an integer, ties to even. *)
Definition hundredths (m e : Z) : Z :=
  div_half_even (100 * numer m e) (denom e).

(** CPython's [double_round]: a correctly rounded two-place decimal of
    the exact value, converted back to the nearest float.  NaN and the
    infinities round to themselves. *)
Definition round2 (x : pyfloat) : pyfloat :=
  match x with
  | FFin neg m e => of_ratio neg (hundredths m e) 100
  | _ => x
  end.

(** *** [format(x, '.2f')] *)

Definition format_2f (x : pyfloat) : string :=
  match x with
  | FNan => "nan"
  | FInf neg => if neg then "-inf" else "inf"
  | FFin neg m e =>
      let h := hundredths m e in
      (if neg then "-" else "") ++ PyStr.of_nonneg (h / 100) ++ "."
      ++ String (PyStr.digit_char (h mod 100 / 10))
           (String (PyStr.digit_char (h mod 10)) "")
  end.

(** *** [float(s)] on text *)

Definition is_space (c : ascii) : bool :=
  let n := PyStr.code c in
  ((9 <=? n) && (n <=? 13)) || (n =? 32) || (n =? 133) || (n =? 160).

Fixpoint lstrip (l : list ascii) : list ascii :=
  match l with
  | c :: r => if is_space c then lstrip r else l
  | [] => []
  end.

Definition strip (l : list ascii) : list ascii :=
  rev (lstrip (rev (lstrip l))).

Definition is_underscore (c : ascii) : bool := PyStr.code c =? 95.

(** An underscore is accepted only between two digits, and is dropped;
    [prev] is the character before [l]. *)
Fixpoint drop_underscores (prev : ascii) (l : list ascii)
  : option (list ascii) :=
  match l with
  | [] => if is_underscore prev then None else Some []
  | c :: r =>
      if is_underscore c
      then (if PyStr.is_digit prev then drop_underscores c r else None)
      else if is_underscore prev && negb (PyStr.is_digit c) then None
      else option_map (cons c) (drop_underscores c r)
  end.

Fixpoint span_digits (l : list ascii) : list ascii * list ascii :=
  match l with
  | c :: r =>
      if PyStr.is_digit c
      then let '(ds, rest) := span_digits r in (c :: ds, rest)
      else ([], l)
  | [] => ([], [])
  end.

Definition digits_val (ds : list ascii) : Z :=
  fold_left (fun acc c => 10 * acc + PyStr.digit_val c) ds 0.

(** An optional sign: whether it is a minus, and the text after it. *)
Definition take_sign (l : list ascii) : bool * list ascii :=
  match l with
  | c :: r =>
      if PyStr.code c =? 45 then (true, r)
      else if PyStr.code c =? 43 then (false, r)
      else (false, l)
  | [] => (false, [])
  end.

(** The float nearest to [c * 10^p]. *)
Definition of_decimal (neg : bool) (c p : Z) : pyfloat :=
  if 0 <=? p then of_ratio neg (c * 10 ^ p) 1
  else of_ratio neg c (10 ^ (- p)).

Definition is_nil {A} (l : list A) : bool :=
  match l with [] => true | _ => false end.

(** digits, an optional point and digits (a digit somewhere), and an
    optional exponent; nothing may follow. *)
Definition parse_number (neg : bool) (l : list ascii) : option pyfloat :=
  let '(ip, r1) := span_digits l in
  let '(fp, r2) :=
    match r1 with
    | c :: r => if PyStr.code c =? 46 then span_digits r else ([], r1)
    | [] => ([], r1)
    end in
  let mant := digits_val (ip ++ fp)%list in
  let scale := - Z.of_nat (List.length fp) in
  if is_nil ip && is_nil fp then None
  else match r2 with
       | [] => Some (of_decimal neg mant scale)
       | c :: r3 =>
           if (PyStr.code c =? 101) || (PyStr.code c =? 69)
           then let '(eneg, r4) := take_sign r3 in
                let '(ep, r5) := span_digits r4 in
                if is_nil ep || negb (is_nil r5) then None
                else let ex := digits_val ep in
                     Some (of_decimal neg mant
                             (scale + (if eneg then - ex else ex)))
           else None
       end.

Definition lower_text (l : list ascii) : string :=
  PyStr.lower (string_of_list_ascii l).

Definition parse_float (l : list ascii) : option pyfloat :=
  let '(neg, body) := take_sign l in
  let w := lower_text body in
  if String.eqb w "inf" || String.eqb w "infinity" then Some (FInf neg)
  else if String.eqb w "nan" then Some FNan
  else parse_number neg body.

Definition float_of_string (s : string) : outcome pyfloat :=
  let failed :=
    Raised (Exn ValueError
              ("could not convert string to float: " ++ PyStr.repr s)) in
  match drop_underscores (PyStr.chr 0) (strip (list_ascii_of_string s)) with
  | None => failed
  | Some l => match parse_float l with
              | Some x => Returned x
              | None => failed
              end
  end.

(** *** [repr(x)]: the shortest decimal that reads back as [x] *)

(** [10^t <= n / d], decided exactly. *)
Definition pow10_le (t n d : Z) : bool :=
  if 0 <=? t then 10 ^ t * d <=? n else d <=? n * 10 ^ (- t).

(** The [t] with [10^t <= n / d < 10^(t+1)]. *)
Definition decimal_exponent (n d : Z) : Z :=
  let t0 := (Z.log2 n - Z.log2 d - 1) * 30103 / 100000 - 1 in
  if pow10_le (t0 + 3) n d then t0 + 3
  else if pow10_le (t0 + 2) n d then t0 + 2
  else if pow10_le (t0 + 1) n d then t0 + 1
  else t0.

(** [floor (n / d / 10^p)] *)
Definition scaled_floor (n d p : Z) : Z :=
  if 0 <=? p then n / (d * 10 ^ p) else (n * 10 ^ (- p)) / d.

(** [n / d] compared with the midpoint [(c + 1/2) * 10^p]. *)
Definition against_midpoint (n d c p : Z) : comparison :=
  if 0 <=? p then 2 * n ?= (2 * c + 1) * 10 ^ p * d
  else 2 * n * 10 ^ (- p) ?= (2 * c + 1) * d.

Definition same_finite (x : pyfloat) (m e : Z) : bool :=
  match x with
  | FFin _ m' e' => (m' =? m) && (e' =? e)
  | _ => false
  end.

(** A coefficient [c] of [k] digits (or [10^k]) for which [c * 10^p]
    reads back as [m * 2^e], the nearer one if there are two. *)
Definition candidate (m e t k : Z) : option Z :=
  let n := numer m e in
  let d := denom e in
  let p := t - k + 1 in
  let lo := scaled_floor n d p in
  let ok c := same_finite (of_decimal false c p) m e in
  match ok lo, ok (lo + 1) with
  | true, true =>
      match against_midpoint n d lo p with
      | Lt => Some lo
      | Gt => Some (lo + 1)
      | Eq => Some (if Z.even lo then lo else lo + 1)
      end
  | true, false => Some lo
  | false, true => Some (lo + 1)
  | false, false => None
  end.

(** Try [k], [k+1], ... digits; seventeen always suffice. *)
Fixpoint shortest_from (fuel : nat) (m e t k : Z) : Z * Z :=
  match fuel with
  | O => (scaled_floor (numer m e) (denom e) (t - k + 1), k)
  | S fuel' =>
      match candidate m e t k with
      | Some c => (c, k)
      | None => shortest_from fuel' m e t (k + 1)
      end
  end.

Fixpoint strip_zeros_rev (l : list ascii) : list ascii :=
  match l with
  | c :: r => if PyStr.code c =? 48 then strip_zeros_rev r else l
  | [] => []
  end.

(** The digits of [dtoa] in mode 0 and the position of the point:
    the value is [0.d1d2... * 10^decpt]. *)
Definition shortest_digits (m e : Z) : list ascii * Z :=
  let t := decimal_exponent (numer m e) (denom e) in
  let '(c, k) := shortest_from 17 m e t 1 in
  let ds := list_ascii_of_string (PyStr.of_nonneg c) in
  (rev (strip_zeros_rev (rev ds)), t + 1 + (Z.of_nat (List.length ds) - k)).

Definition zeros (n : Z) : string := PyStr.replicate (Z.to_nat n) "0".

Definition repr_finite (m e : Z) : string :=
  if m =? 0 then "0.0"
  else
    let '(ds, decpt) := shortest_digits m e in
    let nd := Z.of_nat (List.length ds) in
    if (decpt <=? -4) || (16 <? decpt) then
      let ex := decpt - 1 in
      string_of_list_ascii (firstn 1 ds)
      ++ (if 1 <? nd then "." ++ string_of_list_ascii (skipn 1 ds) else "")
      ++ "e" ++ (if ex <? 0 then "-" else "+")
      ++ (if Z.abs ex <? 10 then "0" else "") ++ PyStr.of_nonneg (Z.abs ex)
    else if decpt <=? 0 then
      "0." ++ zeros (- decpt) ++ string_of_list_ascii ds
    else if nd <=? decpt then
      string_of_list_ascii ds ++ zeros (decpt - nd) ++ ".0"
    else
      string_of_list_ascii (firstn (Z.to_nat decpt) ds) ++ "."
      ++ string_of_list_ascii (skipn (Z.to_nat decpt) ds).

(** [float.__repr__] *)
Definition repr (x : pyfloat) : string :=
  match x with
  | FNan => "nan"
  | FInf neg => if neg then "-inf" else "inf"
  | FFin neg m e => (if neg then "-" else "") ++ repr_finite m e
  end.

End PyFloat.

Export PyFloat(pyfloat, FNan, FInf, FFin).


(** ** [json.dumps] with its default options *)

Module Json.

Inductive json :=
| JStr (s : string)
| JFloat (x : pyfloat)
| JList (items : list json)
| JDict (items : list (string * json)).

Definition hex4 (n : Z) : string :=
  String "0" (String "0" (String (PyStr.hex_char (n / 16))
                            (String (PyStr.hex_char (n mod 16)) ""))).

(** One character inside a JSON string, [ensure_ascii] on. *)
Definition encode_char (c : ascii) : string :=
  let n := PyStr.code c in
  if n =? 34 then PyStr.escaped PyStr.dquote
  else if n =? 92 then PyStr.escaped PyStr.backslash
  else if n =? 10 then PyStr.escaped "n"
  else if n =? 13 then PyStr.escaped "r"
  else if n =? 9 then PyStr.escaped "t"
  else if n =? 8 then PyStr.escaped "b"
  else if n =? 12 then PyStr.escaped "f"
  else if (n <? 32) || (126 <? n)
  then String PyStr.backslash (String "u" (hex4 n))
  else String c "".

Fixpoint encode_body (s : string) : string :=
  match s with
  | EmptyString => ""
  | String c r => encode_char c ++ encode_body r
  end.

Definition encode_string (s : string) : string :=
  String PyStr.dquote (encode_body s ++ String PyStr.dquote "").

Definition encode_float (x : pyfloat) : string :=
  match x with
  | FNan => "NaN"
  | FInf neg => if neg then "-Infinity" else "Infinity"
  | _ => PyFloat.repr x
  end.

Fixpoint dumps (j : json) : string :=
  match j with
  | JStr s => encode_string s
  | JFloat x => encode_float x
  | JList items => "[" ++ PyStr.join ", " (map dumps items) ++ "]"
  | JDict items =>
      "{" ++ PyStr.join ", "
               (map (fun kv => encode_string (fst kv) ++ ": " ++ dumps (snd kv))
                    items)
      ++ "}"
  end.

End Json.

Export Json(json, JStr, JFloat, JList, JDict).

(** ** Data model *)

(** A Python [dict] from text to text, in insertion order. *)
Definition dict := list (string * string).

Definition is_dict (d : dict) : Prop := NoDup (map fst d).

(** [d.get(k)] *)
Fixpoint dict_get (k : string) (d : dict) : option string :=
  match d with
  | [] => None
  | (k', v) :: r => if String.eqb k k' then Some v else dict_get k r
  end.

(** [d.get(k, default)] *)
Definition dict_get_default (k : string) (default : string) (d : dict) : string :=
  match dict_get k d with Some v => v | None => default end.

(** [d[k]], used only on a key of [d]. *)
Definition dict_item (d : dict) (k : string) : string :=
  dict_get_default k "" d.

Definition dict_keys (d : dict) : list string := map fst d.

(** The filter sent to Cost Explorer: [{'Dimensions': {'Key', 'Values'}}],
    [{'Tags': {'Key', 'Values'}}] or [{'And': [...]}]. *)
Inductive filter_expression :=
| Dimensions (Key : string) (Values : list string)
| Tags (Key : string) (Values : list string)
| And (children : list filter_expression).

(** The keyword arguments of [client.get_cost_and_usage]. *)
Record query := Query {
  TimePeriod_Start : string;
  TimePeriod_End : string;
  Granularity : string;
  Metrics : list string;
  GroupBy : list (string * string);
  Filter : option filter_expression
}.

(** The part of the Cost Explorer response the handler reads:
    [response['ResultsByTime'][i]['Groups'][j]] with its ['Keys'] and
    [['Metrics']['UnblendedCost']['Amount']]. *)
Record group := Group { Keys : list string; Amount : string }.
Record result_by_time := ResultByTime { Groups : list group }.
Record ce_response := Response { ResultsByTime : list result_by_time }.

(** [{'Service': ..., 'Cost (USD)': ...}] *)
Record billing_record := Rec { Service : string; Cost : pyfloat }.

(** The event: its ['queryStringParameters'] entry is missing, [None], or
    a mapping. *)
Inductive query_string_parameters :=
| Absent
| Null
| Mapping (m : dict).

Record event := Event { queryStringParameters : query_string_parameters }.

Record http_response := HttpResponse {
  statusCode : Z;
  headers : option (list (string * string));
  body : string
}.

(** ** The world around the handler *)

(** What a run can observe: the successive readings of [datetime.now()],
    whether [boto3.client('ce')] raises, and what the client answers to a
    query ([None] stands for a falsy response). *)
Record env := Env {
  now : nat -> date;
  client_init : option exn;
  get_cost_and_usage : query -> outcome (option ce_response)
}.

(** What a run leaves behind: how often the clock was read, the queries
    sent, and the arguments of the calls to [format_table]. *)
Record state := State {
  clock_reads : nat;
  ce_calls : list query;
  table_calls : list (list billing_record)
}.

Definition initial : state := State 0 [] [].

Definition M (A : Type) : Type := env -> state -> outcome A * state.

Definition ret {A} (a : A) : M A := fun _ st => (Returned a, st).

Definition raise {A} (e : exn) : M A := fun _ st => (Raised e, st).

Definition bind {A B} (c : M A) (k : A -> M B) : M B :=
  fun en st =>
    match c en st with
    | (Returned a, st') => k a en st'
    | (Raised e, st') => (Raised e, st')
    end.

Definition lift {A} (o : outcome A) : M A := fun _ st => (o, st).

(** [try: c  except <classes selected by handles> as e: handler e] *)
Definition try_except {A} (c : M A) (handles : exn -> bool) (handler : exn -> M A)
  : M A :=
  fun en st =>
    match c en st with
    | (Raised e, st') => if handles e then handler e en st' else (Raised e, st')
    | r => r
    end.

Declare Scope py_scope.
Delimit Scope py_scope with py.
Notation "x <- c ;; k" := (bind c (fun x => k))
  (at level 61, c at next level, right associativity) : py_scope.
Notation "c ;;; k" := (bind c (fun _ => k))
  (at level 61, right associativity) : py_scope.

(** [datetime.now()] *)
Definition datetime_now : M date :=
  fun en st =>
    (Returned (now en (clock_reads st)),
     State (S (clock_reads st)) (ce_calls st) (table_calls st)).

(** [boto3.client('ce')] *)
Definition boto3_client : M unit :=
  fun en st =>
    match client_init en with
    | Some e => (Raised e, st)
    | None => (Returned tt, st)
    end.

(** [client.get_cost_and_usage] applied to the query *)
Definition client_get_cost_and_usage (q : query) : M (option ce_response) :=
  fun en st =>
    (get_cost_and_usage en q,
     State (clock_reads st) (ce_calls st ++ [q]) (table_calls st)).

(** A [for] loop over [l] threading the variables [s] it assigns. *)
Definition for_each {A S} (l : list A) (body : S -> A -> outcome S) (s : S)
  : outcome S :=
  fold_left (fun acc a => match acc with
                          | Returned s' => body s' a
                          | Raised e => Raised e
                          end) l (Returned s).

(** ** The program *)

Local Open Scope py_scope.

(** *** [get_aws_billing_data] (lines 5-22) *)

Definition get_aws_billing_data (start_date end_date : string)
  (filters : option filter_expression) : M (option ce_response) :=
  boto3_client ;;;
  let query := Query start_date end_date "MONTHLY" ["UnblendedCost"]
                 [("DIMENSION", "SERVICE")] filters in
  try_except
    (response <- client_get_cost_and_usage query ;;
     ret response)
    (fun _ => true)
    (fun e => raise (Exn RuntimeError ("Cost Explorer Error: " ++ exn_str e))).

(** *** [format_table] (lines 25-42) *)

(** [max(...)] over a non-empty sequence of lengths. *)
Definition py_max (l : list nat) : nat :=
  match l with
  | [] => O
  | x :: r => fold_left Nat.max r x
  end.

Section Sorting.

Context {A : Type} (key : A -> pyfloat).

(** Put [x] in front of the first element whose key is not below its
    own: among equal keys the new element comes first. *)
Fixpoint insert (x : A) (l : list A) : list A :=
  match l with
  | [] => [x]
  | y :: r => if PyFloat.lt (key y) (key x) then y :: insert x r else x :: l
  end.

(** A stable ascending sort that compares keys with [<] only. *)
Fixpoint stable_sort (l : list A) : list A :=
  match l with
  | [] => []
  | x :: r => insert x (stable_sort r)
  end.

(** [sorted(l, key=key, reverse=True)]: CPython reverses the list, sorts
    it upwards and stably, and reverses the result.  On keys that are
    numbers every stable sort gives the same list; with a NaN among the
    keys [<] is no order and CPython's merge sort may place elements
    otherwise than this insertion sort. *)
Definition sorted_reverse (l : list A) : list A :=
  rev (stable_sort (rev l)).

End Sorting.

Definition cost_text (item : billing_record) : string :=
  PyFloat.format_2f (Cost item).

Definition table_row (service_width cost_width : nat) (item : billing_record)
  : string :=
  let service := PyStr.ljust service_width (Service item) in
  let cost := PyStr.rjust cost_width (cost_text item) in
  "| " ++ service ++ " | " ++ cost ++ " |".

Definition service_width (data : list billing_record) : nat :=
  py_max (map (fun item => PyStr.len (Service item)) data).

Definition cost_width (data : list billing_record) : nat :=
  py_max (map (fun item => PyStr.len (cost_text item)) data).

Definition header_row (sw cw : nat) : string :=
  "| " ++ PyStr.ljust sw "Service" ++ " | " ++ PyStr.rjust cw "Cost (USD)" ++ " |".

Definition separator_row (sw cw : nat) : string :=
  "|" ++ PyStr.replicate (sw + 2) "-" ++ "|" ++ PyStr.replicate (cw + 2) "-" ++ "|".

(** The lines of the table, before they are joined. *)
Definition table_lines (data : list billing_record) : list string :=
  let sw := service_width data in
  let cw := cost_width data in
  let table := [header_row sw cw; separator_row sw cw] in
  fold_left (fun table item => table ++ [table_row sw cw item])%list
    (sorted_reverse Cost data) table.

Definition format_table (data : list billing_record) : string :=
  match data with
  | [] => "No billing data available"
  | _ => PyStr.join PyStr.newline (table_lines data)
  end.

(** *** [build_filters] (lines 45-84) *)

Definition comma : ascii := ","%char.

Definition build_filters (params : dict) : option filter_expression :=
  let filters : list filter_expression := [] in
  let filters :=
    match dict_get "services" params with
    | Some v => (filters ++ [Dimensions "SERVICE" (PyStr.split comma v)])%list
    | None => filters
    end in
  let filters :=
    match dict_get "regions" params with
    | Some v => (filters ++ [Dimensions "REGION" (PyStr.split comma v)])%list
    | None => filters
    end in
  let filters :=
    fold_left
      (fun filters param_key =>
         if PyStr.startswith "tag_" param_key
         then let tag_name := PyStr.drop 4 param_key in
              let tag_values := PyStr.split comma (dict_item params param_key) in
              (filters ++ [Tags tag_name tag_values])%list
         else filters)
      (dict_keys params) filters in
  match filters with
  | [] => None
  | [f] => Some f
  | _ => Some (And filters)
  end.

(** *** [lambda_handler] (lines 87-145) *)

(** Lines 93-103, the body of the inner [try]: the two dates, defaults
    included, once they passed validation. *)
Definition parse_and_validate (params : dict) : M (string * string) :=
  now1 <- datetime_now ;;
  let start_date :=
    dict_get_default "start_date" (strftime (replace_day_1 now1)) params in
  now2 <- datetime_now ;;
  yesterday <- lift (minus_one_day now2) ;;
  let end_date := dict_get_default "end_date" (strftime yesterday) params in
  lift (strptime start_date) ;;;
  lift (strptime end_date) ;;;
  s <- lift (strptime start_date) ;;
  e <- lift (strptime end_date) ;;
  if date_gt s e
  then raise (Exn ValueError "start_date must be before end_date")
  else ret (start_date, end_date).

(** Lines 121-123, the body of the inner loop. *)
Definition record_of_group (g : group) : outcome billing_record :=
  match Keys g with
  | [] => Raised (Exn IndexError "list index out of range")
  | service :: _ =>
      match PyFloat.float_of_string (Amount g) with
      | Raised e => Raised e
      | Returned x => Returned (Rec service (PyFloat.round2 x))
      end
  end.

(** Lines 117-123. *)
Definition normalize (response : option ce_response)
  : outcome (list billing_record) :=
  let formatted_data : list billing_record := [] in
  match response with
  | None => Returned formatted_data
  | Some r =>
      for_each (ResultsByTime r)
        (fun formatted_data result =>
           for_each (Groups result)
             (fun formatted_data g =>
                match record_of_group g with
                | Raised e => Raised e
                | Returned item => Returned (formatted_data ++ [item])%list
                end)
             formatted_data)
        formatted_data
  end.

Definition call_format_table (data : list billing_record) : M string :=
  fun _ st =>
    (Returned (format_table data),
     State (clock_reads st) (ce_calls st) (table_calls st ++ [data])).

Definition json_of_record (item : billing_record) : json :=
  JDict [("Service", JStr (Service item)); ("Cost (USD)", JFloat (Cost item))].

Definition error_body (msg : string) : string :=
  Json.dumps (JDict [("error", JStr msg)]).

(** Lines 125-139. *)
Definition respond (params : dict) (formatted_data : list billing_record)
  : M http_response :=
  let output_format := PyStr.lower (dict_get_default "format" "json" params) in
  if String.eqb output_format "table" then
    body <- match formatted_data with
            | [] => ret "No data found"
            | _ => call_format_table formatted_data
            end ;;
    ret (HttpResponse 200 (Some [("Content-Type", "text/plain")]) body)
  else
    let body :=
      match formatted_data with
      | [] => Json.dumps (JDict [("message", JStr "No data found")])
      | _ => Json.dumps (JDict [("data", JList (map json_of_record formatted_data))])
      end in
    ret (HttpResponse 200 (Some [("Content-Type", "application/json")]) body).

(** [event.get('queryStringParameters', {}) or {}] *)
Definition params_of (ev : event) : dict :=
  match queryStringParameters ev with
  | Mapping m => m
  | Absent | Null => []
  end.

Definition lambda_handler (ev : event) : M http_response :=
  try_except
    (let params := params_of ev in
     validated <-
       try_except
         (dates <- parse_and_validate params ;; ret (inl dates))
         is_ValueError
         (fun e => ret (inr (HttpResponse 400 None
                               (error_body ("Invalid date: " ++ exn_str e))))) ;;
     match validated with
     | inr early => ret early
     | inl (start_date, end_date) =>
         let filters := build_filters params in
         response <- get_aws_billing_data start_date end_date filters ;;
         formatted_data <- lift (normalize response) ;;
         respond params formatted_data
     end)
    (fun _ => true)
    (fun e => ret (HttpResponse 500 None (error_body (exn_str e)))).

(** ** Specification-side definitions

    These follow the words of the specification, to be compared with the
    code above. *)

(** [traverse f l]: apply [f] to each element in order and collect the
    results; the first exception ends the traversal. *)
Fixpoint traverse {A B} (f : A -> outcome B) (l : list A) : outcome (list B) :=
  match l with
  | [] => Returned []
  | a :: r =>
      match f a with
      | Raised e => Raised e
      | Returned b =>
          match traverse f r with
          | Raised e => Raised e
          | Returned bs => Returned (b :: bs)
          end
      end
  end.

(** The parameters the filter builder recognizes. *)
Definition is_services (kv : string * string) : bool := String.eqb (fst kv) "services".
Definition is_regions (kv : string * string) : bool := String.eqb (fst kv) "regions".
Definition is_tag (kv : string * string) : bool := PyStr.startswith "tag_" (fst kv).

Definition recognized (kv : string * string) : bool :=
  is_services kv || is_regions kv || is_tag kv.

(** The predicate one recognized parameter stands for. *)
Definition predicate_of (kv : string * string) : filter_expression :=
  if is_services kv then Dimensions "SERVICE" (PyStr.split comma (snd kv))
  else if is_regions kv then Dimensions "REGION" (PyStr.split comma (snd kv))
  else Tags (PyStr.drop 4 (fst kv)) (PyStr.split comma (snd kv)).

(** Services, then regions, then the tags in the mapping's key order. *)
Definition predicates (params : dict) : list filter_expression :=
  (map predicate_of (filter is_services params)
   ++ map predicate_of (filter is_regions params)
   ++ map predicate_of (filter is_tag params))%list.

Definition is_And (f : filter_expression) : bool :=
  match f with And _ => true | _ => false end.

(** No cost of the sequence is a NaN. *)
Definition costs_are_numbers (data : list billing_record) : Prop :=
  Forall (fun item => PyFloat.is_nan (Cost item) = false) data.

(** The records whose cost equals [c], in the order they appear. *)
Definition with_cost (c : pyfloat) (data : list billing_record)
  : list billing_record :=
  filter (fun item => PyFloat.eq (Cost item) c) data.

(** [s] between double quotes. *)
Definition quoted (s : string) : string :=
  String PyStr.dquote (s ++ String PyStr.dquote "").

(** Why the inner [try] rejects a pair of dates, with the text of the
    [ValueError]: the start is malformed, or the end is, or both parse and
    the start is the later one. *)
Definition rejected (start_date end_date msg : string) : Prop :=
  (exists x, strptime start_date = Raised x /\ msg = exn_str x)
  \/ (exists s x, strptime start_date = Returned s
                 /\ strptime end_date = Raised x /\ msg = exn_str x)
  \/ (exists s e, strptime start_date = Returned s
                 /\ strptime end_date = Returned e
                 /\ toordinal e < toordinal s
                 /\ msg = "start_date must be before end_date").

(** A date of the Unix era, which is what a system clock shows. *)
Definition unix_era (d : date) : bool := valid_date d && (1970 <=? year d).

Definition unix_clock (en : env) : Prop := forall n, unix_era (now en n) = true.

(** The day before [d] ([d] itself where there is none). *)
Definition yesterday (d : date) : date :=
  match minus_one_day d with Returned y => y | Raised _ => d end.

(** The query [get_aws_billing_data] sends. *)
Definition monthly_query (start_date end_date : string)
  (filters : option filter_expression) : query :=
  Query start_date end_date "MONTHLY" ["UnblendedCost"]
    [("DIMENSION", "SERVICE")] filters.

Definition sent (st : state) (q : query) : state :=
  State (clock_reads st) (ce_calls st ++ [q]) (table_calls st).

Definition table_mode (params : dict) : bool :=
  String.eqb (PyStr.lower (dict_get_default "format" "json" params)) "table".

(** The part of the handler after validation (lines 111-139). *)
Definition after_validation (params : dict) (start_date end_date : string)
  : M http_response :=
  (response <- get_aws_billing_data start_date end_date (build_filters params) ;;
   formatted_data <- lift (normalize response) ;;
   respond params formatted_data)%py.

(** [x] is the float nearest to [n / d] with the sign [neg]: a finite [x]
    is in normal form and within half a unit in the last place of
    [n / d]; an infinite [x] means that [n / d] is at least half a unit
    beyond the largest finite float. *)
Definition nearest_float (neg : bool) (n d : Z) (x : pyfloat) : Prop :=
  match x with
  | FFin neg' m e =>
      neg' = neg
      /\ 0 <= m < 2 ^ 53
      /\ PyFloat.emin <= e <= PyFloat.emax
      /\ (2 ^ 52 <= m \/ e = PyFloat.emin)
      /\ 2 * Z.abs (n * 2 ^ 1074 - m * 2 ^ (e - PyFloat.emin) * d)
         <= 2 ^ (e - PyFloat.emin) * d
  | FInf neg' =>
      neg' = neg
      /\ (2 ^ 54 - 1) * 2 ^ (PyFloat.emax - PyFloat.emin) * d <= 2 * (n * 2 ^ 1074)
  | FNan => False
  end.

(** Rounding half up to two places, as the specification words it:
    [floor (100 * |x| + 1/2)] hundredths. *)
Definition hundredths_half_up (m e : Z) : Z :=
  (200 * PyFloat.numer m e + PyFloat.denom e) / (2 * PyFloat.denom e).

Definition round2_half_up (x : pyfloat) : pyfloat :=
  match x with
  | FFin neg m e => PyFloat.of_ratio neg (hundredths_half_up m e) 100
  | _ => x
  end.

(** The defaults as the specification words them: one reading of the
    clock gives both the first of the month and yesterday. *)
Definition defaults_of_one_reading (today : date) : outcome (string * string) :=
  match minus_one_day today with
  | Returned y => Returned (strftime (replace_day_1 today), strftime y)
  | Raised x => Raised x
  end.

(** ** Example inputs *)

Definition usd (cents : Z) : pyfloat := PyFloat.of_decimal false cents (-2).

Definition march_15 : nat -> date := fun _ => Date 2025 3 15.

(** A request served around midnight at the end of March: the first
    reading of the clock falls on the 31st, the next one on April 1st. *)
Definition around_midnight : nat -> date :=
  fun n => match n with O => Date 2025 3 31 | S _ => Date 2025 4 1 end.

Definition two_groups : ce_response :=
  Response [ResultByTime [Group ["EC2"] "12.345"; Group ["S3"] "1.2"]].

Definition answering (r : option ce_response) : query -> outcome (option ce_response) :=
  fun _ => Returned r.

Definition failing (msg : string) : query -> outcome (option ce_response) :=
  fun _ => Raised (Exn ClientError msg).

Definition march_request : dict :=
  [("start_date", "2025-03-01"); ("end_date", "2025-03-31"); ("format", "table")].

Definition inverted_request : dict :=
  [("start_date", "2025-03-31"); ("end_date", "2025-03-01")].

Definition filtered_request : dict :=
  [("services", "EC2,S3"); ("format", "json"); ("tag_env", "prod")].

(** ** Further definitions for the properties of the code *)

(** The two header mappings of a 200 response. *)
Definition text_plain : option (list (string * string)) :=
  Some [("Content-Type", "text/plain")].
Definition application_json : option (list (string * string)) :=
  Some [("Content-Type", "application/json")].

Definition logged (st : state) (data : list billing_record) : state :=
  State (clock_reads st) (ce_calls st) (table_calls st ++ [data]).

Definition data_body (data : list billing_record) : string :=
  Json.dumps (JDict [("data", JList (map json_of_record data))]).

(** A predicate as [build_filters] makes them: a dimension SERVICE or
    REGION or a tag, with at least one value. *)
Definition leaf_with_values (f : filter_expression) : Prop :=
  match f with
  | Dimensions k vs => (k = "SERVICE" \/ k = "REGION") /\ vs <> []
  | Tags _ vs => vs <> []
  | And _ => False
  end.

(** A filter as [build_filters] returns them: one such predicate, or an AND
    node over two or more of them. *)
Definition well_formed_filter (f : filter_expression) : Prop :=
  match f with
  | And children => (2 <= List.length children)%nat /\ Forall leaf_with_values children
  | _ => leaf_with_values f
  end.

(** A date written without leading zeros in the month and the day, as
    in [2025-3-1]. *)
Definition short_date (d : date) : string :=
  pad4 (year d) ++ "-" ++ PyStr.of_nonneg (month d) ++ "-" ++ PyStr.of_nonneg (day d).

Definition april_1 : nat -> date := fun _ => Date 2025 4 1.

Definition short_march_request : dict :=
  [("start_date", "2025-3-1"); ("end_date", "2025-3-31")].

Definition timestamp_request : dict :=
  [("start_date", "2025-03-01T00:00:00"); ("end_date", "2025-03-31")].

(** ** Amounts as decimals *)

(** The value of a finite float [(-1)^neg * m * 2^e] times [2^1074], a whole number. *)
Definition scaled_value (m e : Z) : Z := m * 2 ^ (e - PyFloat.emin).

(** [h] is the whole number nearest to [100 * m * 2^e], a tie going to the
    even one. *)
Definition nearest_hundredth (m e h : Z) : Prop :=
  let err := Z.abs (100 * scaled_value m e - h * 2 ^ 1074) in
  2 * err <= 2 ^ 1074 /\ (2 * err = 2 ^ 1074 -> Z.even h = true).

(** [x] is the float read from the decimal [n / d] with the sign [neg]:
    a signed zero for zero, the nearest float otherwise. *)
Definition float_of_decimal (neg : bool) (n d : Z) (x : pyfloat) : Prop :=
  if n =? 0 then x = FFin neg 0 PyFloat.emin else nearest_float neg n d x.

(** [c] is [x] rounded to two decimal places: the float read from the
    hundredth nearest to [x]; an infinity or a NaN stays what it is. *)
Definition rounded_to_2_places (x c : pyfloat) : Prop :=
  match x with
  | FFin neg m e =>
      exists h, 0 <= h /\ nearest_hundredth m e h /\ float_of_decimal neg h 100 c
  | _ => c = x
  end.

(** A decimal numeral: an optional minus sign, the digits [ip] before the
    point and, when there are any, a point and the digits [fp] after it. *)
Definition decimal_chars (neg : bool) (ip fp : list Z) : list ascii :=
  ((if neg then ["-"%char] else [])
   ++ map PyStr.digit_char ip
   ++ match fp with
      | [] => []
      | _ => "."%char :: map PyStr.digit_char fp
      end)%list.

Definition decimal_text (neg : bool) (ip fp : list Z) : string :=
  string_of_list_ascii (decimal_chars neg ip fp).

(** The number a list of digits writes. *)
Definition number (ds : list Z) : Z :=
  fold_left (fun acc d => 10 * acc + d) ds 0.

Definition digits (ds : list Z) : Prop := Forall (fun d => 0 <= d <= 9) ds.

(** A group as Cost Explorer sends them: at least one key, and a decimal
    numeral as the amount. *)
Definition decimal_group (g : group) (service : string) (neg : bool)
  (ip fp : list Z) : Prop :=
  (exists rest, Keys g = service :: rest)
  /\ digits ip /\ digits fp /\ (ip <> [] \/ fp <> [])
  /\ Amount g = decimal_text neg ip fp.

(** A finite float has a mantissa that is not negative and an exponent
    from [emin] on. *)
Definition finite_form (x : pyfloat) : Prop :=
  match x with
  | FFin _ m e => 0 <= m /\ PyFloat.emin <= e
  | _ => True
  end.

(** ** Loops and traversals *)

Section Loops.

Context {A B : Type} (f : A -> outcome B).

Let step (acc : list B) (a : A) : outcome (list B) :=
  match f a with
  | Raised e => Raised e
  | Returned b => Returned (acc ++ [b])%list
  end.

Lemma for_each_raised (S' : Type) (body : S' -> A -> outcome S') l e :
  fold_left (fun acc a => match acc with
                          | Returned s' => body s' a
                          | Raised e' => Raised e'
                          end) l (Raised e) = Raised e.
Proof. induction l as [|a l IH]; simpl; auto. Qed.

(** An appending loop is a traversal put behind what was there. *)
Lemma for_each_append l : forall acc,
  for_each l step acc =
  match traverse f l with
  | Raised e => Raised e
  | Returned bs => Returned (acc ++ bs)%list
  end.
Proof.
  unfold for_each.
  induction l as [|a l IH]; intros acc; simpl.
  - now rewrite app_nil_r.
  - unfold step at 2. destruct (f a) as [b|e].
    + fold (for_each l step (acc ++ [b])%list). unfold for_each. rewrite IH.
      destruct (traverse f l); auto. now rewrite <- app_assoc.
    + apply for_each_raised.
Qed.

Lemma traverse_app l1 l2 :
  traverse f (l1 ++ l2) =
  match traverse f l1 with
  | Raised e => Raised e
  | Returned bs1 =>
      match traverse f l2 with
      | Raised e => Raised e
      | Returned bs2 => Returned (bs1 ++ bs2)%list
      end
  end.
Proof.
  induction l1 as [|a l1 IH]; simpl.
  - destruct (traverse f l2); auto.
  - destruct (f a); auto. rewrite IH.
    destruct (traverse f l1); auto. destruct (traverse f l2); auto.
Qed.

End Loops.

Lemma normalize_loop (rs : list result_by_time) : forall acc,
  for_each rs
    (fun formatted_data result =>
       for_each (Groups result)
         (fun formatted_data g =>
            match record_of_group g with
            | Raised e => Raised e
            | Returned item => Returned (formatted_data ++ [item])%list
            end)
         formatted_data)
    acc =
  match traverse record_of_group (flat_map Groups rs) with
  | Raised e => Raised e
  | Returned items => Returned (acc ++ items)%list
  end.
Proof.
  induction rs as [|r rs IH]; intros acc.
  - simpl. now rewrite app_nil_r.
  - unfold for_each in *. simpl.
    pose proof (for_each_append record_of_group (Groups r) acc) as H.
    unfold for_each in H. rewrite H. rewrite traverse_app.
    destruct (traverse record_of_group (Groups r)) as [bs|e].
    + rewrite IH. destruct (traverse record_of_group (flat_map Groups rs)); auto.
      now rewrite app_assoc.
    + apply for_each_raised.
Qed.

(** ** Splitting on commas *)

Lemma split_not_nil sep s : PyStr.split sep s <> [].
Proof.
  destruct s as [|c r]; simpl; [discriminate|].
  destruct (Ascii.eqb c sep); [discriminate|].
  destruct (PyStr.split sep r); discriminate.
Qed.

Lemma join_cons_char c h t :
  PyStr.join "," (String c h :: t) = String c (PyStr.join "," (h :: t)).
Proof. destruct t; reflexivity. Qed.

Lemma join_split s : PyStr.join "," (PyStr.split comma s) = s.
Proof.
  induction s as [|c r IH]; [reflexivity|]. simpl.
  destruct (Ascii.eqb_spec c comma) as [->|Hc].
  - pose proof (split_not_nil comma r) as Hn.
    destruct (PyStr.split comma r) as [|h t]; [contradiction|].
    simpl in *. now rewrite IH.
  - pose proof (split_not_nil comma r) as Hn.
    destruct (PyStr.split comma r) as [|h t]; [contradiction|].
    rewrite join_cons_char. now rewrite IH.
Qed.

Lemma contains_cons c a s :
  PyStr.contains c (String a s) = (Ascii.eqb c a || PyStr.contains c s)%bool.
Proof. reflexivity. Qed.

Lemma split_parts_have_no_separator s :
  Forall (fun part => PyStr.contains comma part = false) (PyStr.split comma s).
Proof.
  induction s as [|c r IH]; simpl.
  - constructor; [reflexivity|constructor].
  - destruct (Ascii.eqb_spec c comma) as [->|Hc].
    + constructor; [reflexivity|exact IH].
    + assert (Hne : Ascii.eqb comma c = false)
        by (apply Ascii.eqb_neq; congruence).
      destruct (PyStr.split comma r) as [|h t].
      * constructor; [|constructor].
        rewrite contains_cons, Hne. reflexivity.
      * inversion IH as [|? ? Hh Ht]; subst. constructor; [|exact Ht].
        rewrite contains_cons, Hne, Hh. reflexivity.
Qed.

(** ** The filter builder *)

Lemma dict_get_in (d : dict) k v :
  is_dict d -> In (k, v) d -> dict_get k d = Some v.
Proof.
  unfold is_dict. induction d as [|[k' v'] r IH]; simpl; intros Hnd Hin.
  - contradiction.
  - inversion Hnd as [|? ? Hnotin Hnd']; subst.
    destruct Hin as [Heq|Hin].
    + injection Heq as -> ->. now rewrite String.eqb_refl.
    + destruct (String.eqb_spec k k') as [->|Hne]; [|auto].
      exfalso. apply Hnotin. change k' with (fst (k', v)). now apply in_map.
Qed.

Lemma dict_get_none_filter (d : dict) k :
  dict_get k d = None -> filter (fun kv => String.eqb (fst kv) k) d = [].
Proof.
  induction d as [|[k' v'] r IH]; simpl; auto.
  rewrite (String.eqb_sym k' k).
  destruct (String.eqb k k'); [discriminate|auto].
Qed.

Lemma dict_get_filter (d : dict) k :
  is_dict d ->
  filter (fun kv => String.eqb (fst kv) k) d =
  match dict_get k d with Some v => [(k, v)] | None => [] end.
Proof.
  unfold is_dict. induction d as [|[k' v'] r IH]; simpl; intros Hnd; auto.
  inversion Hnd as [|? ? Hnotin Hnd']; subst.
  rewrite (String.eqb_sym k' k).
  destruct (String.eqb_spec k k') as [->|Hne]; [|auto].
  f_equal. apply dict_get_none_filter.
  destruct (dict_get k' r) as [v|] eqn:E; auto.
  exfalso. apply Hnotin. clear - E.
  induction r as [|[k2 v2] r IH]; simpl in *; [discriminate|].
  destruct (String.eqb_spec k' k2); auto.
Qed.

Lemma tag_is_not_services kv : is_tag kv = true -> is_services kv = false.
Proof.
  unfold is_tag, is_services. intros H.
  destruct (String.eqb_spec (fst kv) "services") as [E|]; auto.
  rewrite E in H. discriminate.
Qed.

Lemma tag_is_not_regions kv : is_tag kv = true -> is_regions kv = false.
Proof.
  unfold is_tag, is_regions. intros H.
  destruct (String.eqb_spec (fst kv) "regions") as [E|]; auto.
  rewrite E in H. discriminate.
Qed.

Lemma services_is_not_regions kv : is_services kv = true -> is_regions kv = false.
Proof.
  unfold is_services, is_regions. intros H.
  apply String.eqb_eq in H. rewrite H. reflexivity.
Qed.

(** The loop over the keys appends the tag predicates in key order. *)
Lemma tag_loop (params : dict) :
  is_dict params ->
  forall acc,
    fold_left
      (fun filters param_key =>
         if PyStr.startswith "tag_" param_key
         then (filters ++ [Tags (PyStr.drop 4 param_key)
                             (PyStr.split comma (dict_item params param_key))])%list
         else filters)
      (dict_keys params) acc
    = (acc ++ map predicate_of (filter is_tag params))%list.
Proof.
  intros Hd.
  assert (Hsub : forall kv, In kv params -> In kv params) by auto.
  revert Hsub. generalize params at 1 4 5 as l.
  induction l as [|[k v] l IH]; intros Hsub acc; simpl.
  - now rewrite app_nil_r.
  - assert (Hget : dict_item params k = v).
    { unfold dict_item, dict_get_default.
      rewrite (dict_get_in params k v Hd); auto. apply Hsub. now left. }
    unfold is_tag at 1. simpl fst.
    destruct (PyStr.startswith "tag_" k) eqn:Et.
    + rewrite IH by (intros; apply Hsub; now right).
      rewrite <- app_assoc. simpl. do 2 f_equal.
      unfold predicate_of.
      rewrite (tag_is_not_services (k, v)), (tag_is_not_regions (k, v)) by exact Et.
      simpl. now rewrite Hget.
    + apply IH. intros; apply Hsub; now right.
Qed.

Lemma build_filters_predicates (params : dict) :
  is_dict params ->
  build_filters params =
  match predicates params with
  | [] => None
  | [p] => Some p
  | _ => Some (And (predicates params))
  end.
Proof.
  intros Hd. unfold build_filters. rewrite (tag_loop params Hd).
  assert (P : ((match dict_get "regions" params with
               | Some v =>
                   ((match dict_get "services" params with
                     | Some v0 => ([] ++ [Dimensions "SERVICE" (PyStr.split comma v0)])%list
                     | None => []
                     end) ++ [Dimensions "REGION" (PyStr.split comma v)])%list
               | None =>
                   match dict_get "services" params with
                   | Some v0 => ([] ++ [Dimensions "SERVICE" (PyStr.split comma v0)])%list
                   | None => []
                   end
               end) ++ map predicate_of (filter is_tag params))%list
              = predicates params).
  { unfold predicates.
    change is_services with (fun kv : string * string => String.eqb (fst kv) "services").
    change is_regions with (fun kv : string * string => String.eqb (fst kv) "regions").
    rewrite !(dict_get_filter params) by exact Hd.
    destruct (dict_get "services" params), (dict_get "regions" params); reflexivity. }
  rewrite P. reflexivity.
Qed.

Lemma predicates_count (params : dict) :
  List.length (predicates params) = List.length (filter recognized params).
Proof.
  unfold predicates. rewrite !length_app, !length_map.
  induction params as [|kv r IH]; [reflexivity|]. simpl.
  unfold recognized at 1.
  destruct (is_services kv) eqn:Es.
  - rewrite (services_is_not_regions kv Es).
    destruct (is_tag kv) eqn:Et.
    + rewrite (tag_is_not_services kv Et) in Es. discriminate.
    + simpl. lia.
  - destruct (is_regions kv) eqn:Er.
    + destruct (is_tag kv) eqn:Et.
      * rewrite (tag_is_not_regions kv Et) in Er. discriminate.
      * simpl. lia.
    + destruct (is_tag kv); simpl; lia.
Qed.

Lemma predicates_are_leaves (params : dict) :
  Forall (fun p => is_And p = false) (predicates params).
Proof.
  unfold predicates. rewrite !Forall_app. repeat split;
    apply Forall_forall; intros p Hp; apply in_map_iff in Hp;
    destruct Hp as (kv & <- & _); unfold predicate_of;
    destruct (is_services kv), (is_regions kv); reflexivity.
Qed.

(** C2. On a parameter mapping, [build_filters] returns no filter when
    none of the recognized parameters (services, regions, tag_...) is
    present, the single predicate itself when exactly one is, and an AND
    node over all predicates when two or more are, in the order services,
    regions, tags in key order; the value list of a predicate is the
    parameter's value cut at its commas. *)
Theorem build_filters_combines (params : dict) :
  is_dict params ->
  let present := List.length (filter recognized params) in
  (present = 0%nat -> build_filters params = None)
  /\ (present = 1%nat ->
      exists p, predicates params = [p] /\ is_And p = false
                /\ build_filters params = Some p)
  /\ ((2 <= present)%nat -> build_filters params = Some (And (predicates params)))
  /\ (forall v, PyStr.join "," (PyStr.split comma v) = v
                /\ Forall (fun part => PyStr.contains comma part = false)
                     (PyStr.split comma v)).
Proof.
  intros Hd present. subst present.
  rewrite <- predicates_count, (build_filters_predicates params Hd).
  pose proof (predicates_are_leaves params) as Hl.
  destruct (predicates params) as [|p [|q r]]; simpl; repeat split;
    try (intros; discriminate); try (intros; lia); auto using join_split,
    split_parts_have_no_separator.
  intros _. exists p. inversion Hl; subst. auto.
Qed.

(** ** Sorting *)

Section SortingFacts.

Context {A : Type} (key : A -> pyfloat).

Let number (a : A) : Prop := PyFloat.is_nan (key a) = false.
Let asc (a b : A) : Prop := PyFloat.rank (key a) <= PyFloat.rank (key b).

Lemma insert_perm x l : Permutation (insert key x l) (x :: l).
Proof.
  induction l as [|y r IH]; simpl; auto.
  destruct (PyFloat.lt (key y) (key x)); auto.
  rewrite IH. apply perm_swap.
Qed.

Lemma stable_sort_perm l : Permutation (stable_sort key l) l.
Proof.
  induction l as [|x r IH]; simpl; auto.
  rewrite insert_perm. now constructor.
Qed.

Lemma sorted_reverse_perm l : Permutation (sorted_reverse key l) l.
Proof.
  unfold sorted_reverse.
  rewrite <- Permutation_rev, stable_sort_perm. symmetry. apply Permutation_rev.
Qed.

Lemma lt_number x y :
  number x -> number y ->
  PyFloat.lt (key x) (key y) = (PyFloat.rank (key x) <? PyFloat.rank (key y)).
Proof. unfold number, PyFloat.lt. intros -> ->. reflexivity. Qed.

Lemma insert_sorted x l :
  number x -> Forall number l ->
  StronglySorted asc l -> StronglySorted asc (insert key x l).
Proof.
  intros Hx. induction l as [|y r IH]; intros Hl Hs; simpl.
  - repeat constructor.
  - inversion Hl as [|? ? Hy Hr]; subst.
    inversion Hs as [|? ? Hs' Hall]; subst.
    rewrite (lt_number y x Hy Hx).
    destruct (Z.ltb_spec (PyFloat.rank (key y)) (PyFloat.rank (key x))) as [Hlt|Hge].
    + constructor; [now apply IH|].
      apply (Permutation_Forall (x := x :: r)); [symmetry; apply insert_perm|].
      constructor; [unfold asc; lia|exact Hall].
    + constructor; [exact Hs|].
      constructor; [exact Hge|].
      eapply Forall_impl; [|exact Hall]. unfold asc. intros; lia.
Qed.

Lemma stable_sort_sorted l :
  Forall number l -> StronglySorted asc (stable_sort key l).
Proof.
  induction l as [|x r IH]; intros Hl; simpl; [constructor|].
  inversion Hl; subst. apply insert_sorted; auto.
  apply (Permutation_Forall (x := r)); [symmetry; apply stable_sort_perm|auto].
Qed.

Lemma sorted_snoc (R : A -> A -> Prop) l a :
  StronglySorted R l -> Forall (fun b => R b a) l -> StronglySorted R (l ++ [a]).
Proof.
  induction l as [|b l IH]; intros Hs Hall; simpl.
  - repeat constructor.
  - inversion Hs; subst. inversion Hall; subst.
    constructor; [auto|]. apply Forall_app. split; auto.
Qed.

Lemma sorted_rev (R : A -> A -> Prop) l :
  StronglySorted R l -> StronglySorted (fun a b => R b a) (rev l).
Proof.
  induction l as [|a l IH]; intros Hs; simpl; [constructor|].
  inversion Hs; subst. apply sorted_snoc; auto.
  now apply Forall_rev.
Qed.

(** Descending order of the keys after [sorted(..., reverse=True)]. *)
Lemma sorted_reverse_descending l :
  Forall number l ->
  StronglySorted (fun a b => PyFloat.le (key b) (key a) = true)
    (sorted_reverse key l).
Proof.
  intros Hl. unfold sorted_reverse.
  assert (Hn : Forall number (rev (stable_sort key (rev l)))).
  { apply Forall_rev.
    apply (Permutation_Forall (x := rev l)); [symmetry; apply stable_sort_perm|].
    now apply Forall_rev. }
  assert (Hs : StronglySorted (fun a b => asc b a /\ number a /\ number b)
                 (rev (stable_sort key (rev l)))).
  { pose proof (sorted_rev asc _ (stable_sort_sorted (rev l) (Forall_rev Hl))) as H.
    revert H Hn. generalize (rev (stable_sort key (rev l))) as rows.
    induction rows as [|a rows IH]; intros Hs Hn; [constructor|].
    inversion Hs as [|? ? Hs' Hall]; subst. inversion Hn as [|? ? Ha Hrows]; subst.
    constructor; [auto|].
    rewrite Forall_forall in *. intros b Hb. auto. }
  eapply StronglySorted_ind with (P := StronglySorted _); [constructor| |exact Hs].
  intros a rows _ IH Hall. constructor; [exact IH|].
  eapply Forall_impl; [|exact Hall]. cbv beta.
  intros b (Hab & Ha & Hb). unfold PyFloat.le. unfold number in *.
  rewrite Ha, Hb. simpl. apply Z.leb_le. exact Hab.
Qed.

(** Stability: the elements of one key value keep their order. *)
Lemma insert_stable c x l :
  filter (fun a => PyFloat.eq (key a) c) (insert key x l) =
  filter (fun a => PyFloat.eq (key a) c) (x :: l).
Proof.
  induction l as [|y r IH]; [reflexivity|]. simpl insert.
  destruct (PyFloat.lt (key y) (key x)) eqn:Hlt; [|reflexivity].
  cbn [filter] in *. rewrite IH.
  destruct (PyFloat.eq (key x) c) eqn:Ex; [|reflexivity].
  destruct (PyFloat.eq (key y) c) eqn:Ey; [|reflexivity].
  exfalso. unfold PyFloat.lt, PyFloat.eq in *.
  destruct (PyFloat.is_nan (key x)), (PyFloat.is_nan (key y)),
    (PyFloat.is_nan c); simpl in *; try discriminate.
  apply Z.ltb_lt in Hlt. apply Z.eqb_eq in Ex, Ey. lia.
Qed.

Lemma stable_sort_stable c l :
  filter (fun a => PyFloat.eq (key a) c) (stable_sort key l) =
  filter (fun a => PyFloat.eq (key a) c) l.
Proof.
  induction l as [|x r IH]; [reflexivity|]. simpl stable_sort.
  rewrite insert_stable. cbn [filter]. now rewrite IH.
Qed.

Lemma sorted_reverse_stable c l :
  filter (fun a => PyFloat.eq (key a) c) (sorted_reverse key l) =
  filter (fun a => PyFloat.eq (key a) c) l.
Proof.
  unfold sorted_reverse.
  rewrite filter_rev, stable_sort_stable, filter_rev. apply rev_involutive.
Qed.

End SortingFacts.

(** ** The table *)

Lemma append_loop {A B} (f : A -> B) l : forall acc,
  fold_left (fun table item => table ++ [f item])%list l acc
  = (acc ++ map f l)%list.
Proof.
  induction l as [|a l IH]; intros acc; simpl.
  - now rewrite app_nil_r.
  - rewrite IH, <- app_assoc. reflexivity.
Qed.

Lemma table_lines_rows data :
  table_lines data =
  header_row (service_width data) (cost_width data)
  :: separator_row (service_width data) (cost_width data)
  :: map (table_row (service_width data) (cost_width data))
       (sorted_reverse Cost data).
Proof. unfold table_lines. now rewrite append_loop. Qed.

(** C8. For a non-empty sequence of billing records with numeric costs,
    the data rows of the formatted table are the records sorted by cost,
    highest first, and the records of one cost keep the order they had in
    the input. *)
Theorem format_table_rows_sorted_stable (data : list billing_record) :
  data <> [] ->
  costs_are_numbers data ->
  exists rows,
    format_table data =
      PyStr.join PyStr.newline
        (header_row (service_width data) (cost_width data)
         :: separator_row (service_width data) (cost_width data)
         :: map (table_row (service_width data) (cost_width data)) rows)
    /\ Permutation rows data
    /\ StronglySorted (fun a b => PyFloat.le (Cost b) (Cost a) = true) rows
    /\ (forall c, with_cost c rows = with_cost c data).
Proof.
  intros Hne Hnum. exists (sorted_reverse Cost data). repeat split.
  - destruct data as [|d ds]; [contradiction|].
    unfold format_table. now rewrite table_lines_rows.
  - apply sorted_reverse_perm.
  - apply sorted_reverse_descending. exact Hnum.
  - intros c. apply sorted_reverse_stable.
Qed.

(** ** Dates: the calendar, and text that reads back *)

Ltac checks :=
  repeat (apply andb_true_intro; split);
  first [reflexivity | apply Z.leb_le; cbn; lia].

Lemma minus_one_day_is_yesterday d y :
  valid_date d = true ->
  minus_one_day d = Returned y ->
  valid_date y = true /\ toordinal y = toordinal d - 1.
Proof.
  destruct d as [yy mm dd]. unfold valid_date, minus_one_day, MINYEAR, MAXYEAR.
  cbn [year month day]. intros Hv.
  repeat (apply andb_prop in Hv; destruct Hv as [Hv ?]).
  repeat match goal with
         | H : (_ <=? _) = true |- _ => apply Z.leb_le in H
         end.
  destruct (Z.ltb_spec 1 dd).
  { intros [= <-]. unfold valid_date, toordinal, MINYEAR, MAXYEAR. cbn [year month day].
    split; [|lia].
    checks. }
  assert (dd = 1) by lia. subst dd.
  destruct (Z.ltb_spec 1 mm).
  { intros [= <-]. unfold valid_date, toordinal, MINYEAR, MAXYEAR. cbn [year month day].
    assert (Hm : mm = 2 \/ mm = 3 \/ mm = 4 \/ mm = 5 \/ mm = 6 \/ mm = 7 \/ mm = 8
                 \/ mm = 9 \/ mm = 10 \/ mm = 11 \/ mm = 12) by lia.
    unfold days_in_month, days_before_month.
    repeat destruct Hm as [Hm|Hm]; subst mm; cbn;
      destruct (is_leap yy); cbn;
      (split; [checks | lia]). }
  assert (mm = 1) by lia. subst mm.
  destruct (Z.ltb_spec 1 yy); [|discriminate].
  intros [= <-]. unfold valid_date, toordinal, MINYEAR, MAXYEAR. cbn [year month day].
  split; [checks|].
  unfold days_before_month, days_before_year, is_leap. cbn -[Z.div Z.modulo].
  replace (yy - 1 - 1) with (yy - 2) by lia.
  destruct (Z.eqb_spec ((yy - 1) mod 4) 0);
    destruct (Z.eqb_spec ((yy - 1) mod 100) 0);
    destruct (Z.eqb_spec ((yy - 1) mod 400) 0); cbn -[Z.div Z.modulo];
    Z.div_mod_to_equations; lia.
Qed.

Lemma valid_date_bounds d :
  valid_date d = true ->
  1 <= year d <= 9999 /\ 1 <= month d <= 12
  /\ 1 <= day d <= days_in_month (year d) (month d).
Proof.
  unfold valid_date, MINYEAR, MAXYEAR. intros Hv.
  repeat (apply andb_prop in Hv; destruct Hv as [Hv ?]).
  repeat match goal with
         | H : (_ <=? _) = true |- _ => apply Z.leb_le in H
         end.
  lia.
Qed.

Lemma days_before_next_year y :
  days_before_year (y + 1) = days_before_year y + 365 + (if is_leap y then 1 else 0).
Proof.
  unfold days_before_year, is_leap. cbv zeta.
  replace (y + 1 - 1) with y by lia.
  destruct (Z.eqb_spec (y mod 4) 0);
    destruct (Z.eqb_spec (y mod 100) 0);
    destruct (Z.eqb_spec (y mod 400) 0); cbn -[Z.div Z.modulo];
    Z.div_mod_to_equations; lia.
Qed.

Lemma days_before_year_mono y1 y2 :
  y1 <= y2 -> days_before_year y1 <= days_before_year y2.
Proof.
  unfold days_before_year. cbv zeta. intros H.
  Z.div_mod_to_equations. lia.
Qed.

Lemma months_in_order y m1 m2 :
  1 <= m1 -> m1 < m2 -> m2 <= 12 ->
  days_before_month y m1 + days_in_month y m1 <= days_before_month y m2.
Proof.
  intros H1 H12 H2.
  assert (Hm1 : m1 = 1 \/ m1 = 2 \/ m1 = 3 \/ m1 = 4 \/ m1 = 5 \/ m1 = 6 \/ m1 = 7
                \/ m1 = 8 \/ m1 = 9 \/ m1 = 10 \/ m1 = 11) by lia.
  assert (Hm2 : m2 = 2 \/ m2 = 3 \/ m2 = 4 \/ m2 = 5 \/ m2 = 6 \/ m2 = 7 \/ m2 = 8
                \/ m2 = 9 \/ m2 = 10 \/ m2 = 11 \/ m2 = 12) by lia.
  unfold days_before_month, days_in_month.
  repeat destruct Hm1 as [Hm1|Hm1]; subst m1;
    repeat destruct Hm2 as [Hm2|Hm2]; subst m2; try lia;
    cbn; destruct (is_leap y); cbn; lia.
Qed.

Lemma year_has_room y m :
  1 <= m <= 12 ->
  0 <= days_before_month y m
  /\ days_before_month y m + days_in_month y m
     <= 365 + (if is_leap y then 1 else 0).
Proof.
  intros Hm.
  assert (Hm' : m = 1 \/ m = 2 \/ m = 3 \/ m = 4 \/ m = 5 \/ m = 6 \/ m = 7
                \/ m = 8 \/ m = 9 \/ m = 10 \/ m = 11 \/ m = 12) by lia.
  unfold days_before_month, days_in_month.
  repeat destruct Hm' as [Hm'|Hm']; subst m; cbn; destruct (is_leap y); cbn; lia.
Qed.

(** A later date has a larger day count. *)
Lemma toordinal_increasing a b :
  valid_date a = true -> valid_date b = true ->
  year a < year b
  \/ (year a = year b
      /\ (month a < month b \/ (month a = month b /\ day a < day b))) ->
  toordinal a < toordinal b.
Proof.
  intros Ha Hb.
  apply valid_date_bounds in Ha, Hb.
  destruct a as [ya ma da], b as [yb mb db]. unfold toordinal. cbn [year month day] in *.
  intros [Hy | [-> [Hm | [-> Hd]]]].
  - pose proof (year_has_room ya ma ltac:(lia)).
    pose proof (year_has_room yb mb ltac:(lia)).
    pose proof (days_before_next_year ya).
    pose proof (days_before_year_mono (ya + 1) yb ltac:(lia)).
    lia.
  - pose proof (months_in_order yb ma mb ltac:(lia) Hm ltac:(lia)). lia.
  - lia.
Qed.

(** [a > b] on dates is the comparison of their day counts. *)
Lemma date_gt_toordinal a b :
  valid_date a = true -> valid_date b = true ->
  date_gt a b = true <-> toordinal b < toordinal a.
Proof.
  intros Ha Hb. unfold date_gt. split.
  - intros H. apply toordinal_increasing; auto.
    apply orb_prop in H. destruct H as [H|H]; [left; now apply Z.ltb_lt|].
    apply andb_prop in H. destruct H as [Hy H]. apply Z.eqb_eq in Hy.
    right. split; [auto|].
    apply orb_prop in H. destruct H as [H|H]; [left; now apply Z.ltb_lt|].
    apply andb_prop in H. destruct H as [Hm H]. apply Z.eqb_eq in Hm.
    right. split; [auto|]. now apply Z.ltb_lt.
  - intros Hlt.
    destruct (Z.ltb_spec (year b) (year a)); [reflexivity|].
    destruct (Z.eqb_spec (year b) (year a)) as [Ey|Ny].
    2:{ exfalso.
        pose proof (toordinal_increasing a b Ha Hb ltac:(left; lia)). lia. }
    destruct (Z.ltb_spec (month b) (month a)); [reflexivity|].
    destruct (Z.eqb_spec (month b) (month a)) as [Em|Nm].
    2:{ exfalso.
        pose proof (toordinal_increasing a b Ha Hb ltac:(right; split; [lia|left; lia])).
        lia. }
    destruct (Z.ltb_spec (day b) (day a)); [reflexivity|].
    exfalso. unfold toordinal in Hlt. rewrite Ey, Em in Hlt. lia.
Qed.

(** *** [strptime] reads back what [strftime] writes *)

Lemma digit_char_is_digit k :
  0 <= k <= 9 ->
  PyStr.is_digit (PyStr.digit_char k) = true
  /\ PyStr.digit_val (PyStr.digit_char k) = k.
Proof.
  intros Hk.
  assert (H : k = 0 \/ k = 1 \/ k = 2 \/ k = 3 \/ k = 4 \/ k = 5 \/ k = 6
              \/ k = 7 \/ k = 8 \/ k = 9) by lia.
  repeat destruct H as [H|H]; subst k; split; reflexivity.
Qed.

Lemma strftime_shape d :
  strftime d =
  String (PyStr.digit_char (year d / 1000))
    (String (PyStr.digit_char (year d / 100 mod 10))
      (String (PyStr.digit_char (year d mod 100 / 10))
        (String (PyStr.digit_char (year d mod 100 mod 10))
          (String "-" (pad2 (month d) ++ "-" ++ pad2 (day d)))))).
Proof. reflexivity. Qed.

Lemma month_day_read_back m d :
  1 <= m <= 12 -> 1 <= d <= 31 ->
  exists rest,
    Strptime.matches_m_d (pad2 m ++ "-" ++ pad2 d) = (m, d, "") :: rest.
Proof.
  intros Hm Hd.
  assert (Hm' : m = 1 \/ m = 2 \/ m = 3 \/ m = 4 \/ m = 5 \/ m = 6 \/ m = 7
                \/ m = 8 \/ m = 9 \/ m = 10 \/ m = 11 \/ m = 12) by lia.
  assert (Hd' : (d = 1 \/ d = 2 \/ d = 3 \/ d = 4 \/ d = 5 \/ d = 6 \/ d = 7
                 \/ d = 8 \/ d = 9 \/ d = 10)
                \/ (d = 11 \/ d = 12 \/ d = 13 \/ d = 14 \/ d = 15 \/ d = 16
                    \/ d = 17 \/ d = 18 \/ d = 19 \/ d = 20)
                \/ (d = 21 \/ d = 22 \/ d = 23 \/ d = 24 \/ d = 25 \/ d = 26
                    \/ d = 27 \/ d = 28 \/ d = 29 \/ d = 30 \/ d = 31)) by lia.
  repeat destruct Hm' as [Hm'|Hm']; subst m;
    repeat destruct Hd' as [Hd'|Hd']; subst d;
    eexists; vm_compute; reflexivity.
Qed.

Lemma days_in_month_at_most_31 y m : days_in_month y m <= 31.
Proof.
  unfold days_in_month.
  repeat match goal with |- context [if ?b then _ else _] => destruct b end; lia.
Qed.

Lemma strptime_strftime d :
  valid_date d = true -> strptime (strftime d) = Returned d.
Proof.
  intros Hv. pose proof (valid_date_bounds d Hv) as (Hy & Hm & Hd).
  pose proof (days_in_month_at_most_31 (year d) (month d)) as H31.
  destruct (month_day_read_back (month d) (day d) Hm ltac:(lia)) as (rest & Hmd).
  unfold strptime, Strptime.strptime, Strptime.matches.
  rewrite strftime_shape. unfold Strptime.group_Y.
  destruct (digit_char_is_digit (year d / 1000)) as [D1 V1];
    [Z.div_mod_to_equations; lia|].
  destruct (digit_char_is_digit (year d / 100 mod 10)) as [D2 V2];
    [Z.div_mod_to_equations; lia|].
  destruct (digit_char_is_digit (year d mod 100 / 10)) as [D3 V3];
    [Z.div_mod_to_equations; lia|].
  destruct (digit_char_is_digit (year d mod 100 mod 10)) as [D4 V4];
    [Z.div_mod_to_equations; lia|].
  rewrite D1, D2, D3, D4, V1, V2, V3, V4.
  cbn [andb flat_map Strptime.dash app]. 
  change (PyStr.code "-" =? 45) with true. cbv iota.
  cbn [flat_map app]. rewrite Hmd. cbn [map app].
  assert (E : 1000 * (year d / 1000) + 100 * (year d / 100 mod 10)
              + 10 * (year d mod 100 / 10) + year d mod 100 mod 10 = year d).
  { Z.div_mod_to_equations. lia. }
  rewrite E. unfold datetime_date, MINYEAR, MAXYEAR.
  destruct (Z.ltb_spec (year d) 1); [lia|].
  destruct (Z.ltb_spec 9999 (year d)); [lia|].
  destruct (Z.ltb_spec (month d) 1); [lia|].
  destruct (Z.ltb_spec 12 (month d)); [lia|].
  destruct (Z.ltb_spec (day d) 1); [lia|].
  destruct (Z.ltb_spec (days_in_month (year d) (month d)) (day d)); [lia|].
  cbn. now destruct d.
Qed.

Lemma replace_day_1_valid d :
  valid_date d = true -> valid_date (replace_day_1 d) = true.
Proof.
  intros Hv. apply valid_date_bounds in Hv. destruct Hv as (Hy & Hm & Hd).
  unfold valid_date, replace_day_1, MINYEAR, MAXYEAR. cbn [year month day].
  assert (1 <= days_in_month (year d) (month d)) by lia.
  repeat (apply andb_true_intro; split); apply Z.leb_le; lia.
Qed.

Lemma strftime_length d : String.length (strftime d) = 10%nat.
Proof. reflexivity. Qed.


Lemma date_gt_ltb a b :
  valid_date a = true -> valid_date b = true ->
  date_gt a b = (toordinal b <? toordinal a).
Proof.
  intros Ha Hb. pose proof (date_gt_toordinal a b Ha Hb) as H.
  destruct (Z.ltb_spec (toordinal b) (toordinal a)) as [Hlt|Hge].
  - now apply H.
  - destruct (date_gt a b); [|reflexivity]. exfalso.
    assert (toordinal b < toordinal a) by now apply H. lia.
Qed.

Lemma strptime_valid s d : strptime s = Returned d -> valid_date d = true.
Proof.
  unfold strptime, Strptime.strptime.
  destruct (Strptime.matches s) as [|[[[y m] dd] rest] ms]; [discriminate|].
  destruct rest; [|discriminate].
  unfold datetime_date, valid_date, MINYEAR, MAXYEAR.
  destruct (Z.ltb_spec y 1); [discriminate|].
  destruct (Z.ltb_spec 9999 y); [discriminate|].
  destruct (Z.ltb_spec m 1); [discriminate|].
  destruct (Z.ltb_spec 12 m); [discriminate|].
  destruct (Z.ltb_spec dd 1); [discriminate|].
  destruct (Z.ltb_spec (days_in_month y m) dd); [discriminate|].
  cbn. intros [= <-]. cbn [year month day]. checks.
Qed.

Lemma unix_era_valid d :
  unix_era d = true -> valid_date d = true /\ 1970 <= year d.
Proof.
  unfold unix_era. intros H. apply andb_prop in H. destruct H as [Hv Hy].
  apply Z.leb_le in Hy. auto.
Qed.

(** In the Unix era the day before exists. *)
Lemma unix_era_yesterday d :
  unix_era d = true ->
  minus_one_day d = Returned (yesterday d)
  /\ valid_date (yesterday d) = true
  /\ toordinal (yesterday d) = toordinal d - 1.
Proof.
  intros H. destruct (unix_era_valid d H) as [Hv Hy].
  assert (E : exists y, minus_one_day d = Returned y).
  { unfold minus_one_day, MINYEAR.
    destruct (1 <? day d); [eauto|]. destruct (1 <? month d); [eauto|].
    destruct (Z.ltb_spec 1 (year d)); [eauto|lia]. }
  destruct E as (y & E). unfold yesterday. rewrite E.
  split; [reflexivity|]. eapply minus_one_day_is_yesterday; eauto.
Qed.

(** ** The handler *)

Lemma strptime_raises_ValueError s x :
  strptime s = Raised x -> is_ValueError x = true.
Proof.
  unfold strptime, Strptime.strptime.
  destruct (Strptime.matches s) as [|[[[y m] d] rest] ms].
  - intros H. injection H as <-. reflexivity.
  - destruct rest.
    + unfold datetime_date.
      repeat match goal with
             | |- context [if ?b then _ else _] => destruct b
             end; intros H; try discriminate; injection H as <-; reflexivity.
    + intros H. injection H as <-. reflexivity.
Qed.

(** What lines 93-103 do, case by case; the clock has been read twice
    whatever happens. *)
Lemma parse_and_validate_run (params : dict) en st :
  let st2 := State (S (S (clock_reads st))) (ce_calls st) (table_calls st) in
  parse_and_validate params en st =
  match minus_one_day (now en (S (clock_reads st))) with
  | Raised x => (Raised x, st2)
  | Returned y =>
      let start_date :=
        dict_get_default "start_date"
          (strftime (replace_day_1 (now en (clock_reads st)))) params in
      let end_date := dict_get_default "end_date" (strftime y) params in
      match strptime start_date with
      | Raised x => (Raised x, st2)
      | Returned s =>
          match strptime end_date with
          | Raised x => (Raised x, st2)
          | Returned e =>
              if date_gt s e
              then (Raised (Exn ValueError "start_date must be before end_date"), st2)
              else (Returned (start_date, end_date), st2)
          end
      end
  end.
Proof.
  unfold parse_and_validate, bind, lift, datetime_now, ret, raise. cbn.
  destruct (minus_one_day (now en (S (clock_reads st)))) as [y|x]; [|reflexivity].
  cbn.
  destruct (strptime (dict_get_default "start_date" _ params)) as [s|x];
    [|reflexivity].
  destruct (strptime (dict_get_default "end_date" _ params)) as [e|x];
    [|reflexivity].
  destruct (date_gt s e); reflexivity.
Qed.

Lemma get_aws_billing_data_run start_date end_date filters en st :
  get_aws_billing_data start_date end_date filters en st =
  match client_init en with
  | Some x => (Raised x, st)
  | None =>
      let q := monthly_query start_date end_date filters in
      match get_cost_and_usage en q with
      | Returned response => (Returned response, sent st q)
      | Raised x =>
          (Raised (Exn RuntimeError ("Cost Explorer Error: " ++ exn_str x)),
           sent st q)
      end
  end.
Proof.
  unfold get_aws_billing_data, bind, boto3_client, try_except,
    client_get_cost_and_usage, ret, raise, monthly_query, sent.
  destruct (client_init en); [reflexivity|].
  destruct (get_cost_and_usage en _); reflexivity.
Qed.

Lemma respond_run params data en st :
  exists resp st',
    respond params data en st = (Returned resp, st')
    /\ statusCode resp = 200
    /\ clock_reads st' = clock_reads st
    /\ ce_calls st' = ce_calls st
    /\ (table_calls st' = table_calls st
        \/ (data <> [] /\ table_calls st' = (table_calls st ++ [data])%list)).
Proof.
  unfold respond, bind, ret, call_format_table.
  destruct (String.eqb _ "table").
  - destruct data as [|d ds].
    + do 2 eexists. repeat split; auto.
    + do 2 eexists. repeat split; auto. right. split; [discriminate|reflexivity].
  - do 2 eexists. repeat split; auto.
Qed.

Lemma lambda_handler_accepted ev en st start_date end_date st1 :
  parse_and_validate (params_of ev) en st = (Returned (start_date, end_date), st1) ->
  lambda_handler ev en st =
  match after_validation (params_of ev) start_date end_date en st1 with
  | (Raised x, st') => (Returned (HttpResponse 500 None (error_body (exn_str x))), st')
  | r => r
  end.
Proof.
  intros H. unfold lambda_handler, try_except, bind, ret. rewrite H.
  reflexivity.
Qed.

Lemma lambda_handler_rejected ev en st x st1 :
  parse_and_validate (params_of ev) en st = (Raised x, st1) ->
  lambda_handler ev en st =
  if is_ValueError x
  then (Returned (HttpResponse 400 None (error_body ("Invalid date: " ++ exn_str x))),
        st1)
  else (Returned (HttpResponse 500 None (error_body (exn_str x))), st1).
Proof.
  intros H. unfold lambda_handler, try_except, bind, ret. rewrite H.
  destruct (is_ValueError x); reflexivity.
Qed.

Lemma after_validation_run params start_date end_date en st :
  exists r st',
    after_validation params start_date end_date en st = (r, st')
    /\ clock_reads st' = clock_reads st
    /\ (forall resp, r = Returned resp -> statusCode resp = 200)
    /\ (client_init en = None ->
        let q := monthly_query start_date end_date (build_filters params) in
        ce_calls st' = (ce_calls st ++ [q])%list)
    /\ (Forall (fun d => d <> []) (table_calls st) ->
        Forall (fun d : list billing_record => d <> []) (table_calls st')).
Proof.
  unfold after_validation, bind, lift.
  rewrite get_aws_billing_data_run.
  destruct (client_init en) as [x|].
  { do 2 eexists. repeat split; auto; discriminate. }
  cbv zeta.
  destruct (get_cost_and_usage en _) as [response|x].
  2:{ do 2 eexists. repeat split; auto; discriminate. }
  destruct (normalize response) as [data|x].
  2:{ do 2 eexists. repeat split; auto; discriminate. }
  destruct (respond_run params data en
              (sent st (monthly_query start_date end_date (build_filters params))))
    as (resp & st' & -> & Hs & Hc & Hq & Ht).
  do 2 eexists. split; [reflexivity|]. repeat split; auto.
  - intros ? [= <-]. exact Hs.
  - intros Hall. destruct Ht as [-> | [Hne ->]]; [exact Hall|].
    apply Forall_app. split; [exact Hall|]. constructor; [exact Hne|constructor].
Qed.

Lemma error_body_text msg :
  error_body msg = "{" ++ quoted "error" ++ ": " ++ Json.encode_string msg ++ "}".
Proof. reflexivity. Qed.

(** C1. Take the two dates that reach validation (the parameters, or the
    defaults computed from a clock of the Unix era).  If both parse as
    calendar dates and the start is not after the end, validation accepts
    them, the response is not a 400 and the billing query is sent with
    exactly these dates.  If either is malformed or the start is after the
    end, the handler answers 400 with the JSON body
    [{"error": "Invalid date: <message>"}] and no billing query is sent. *)
Theorem dates_validated_before_query (ev : event) (en : env) (st : state) :
  unix_clock en ->
  let params := params_of ev in
  let start_date :=
    dict_get_default "start_date"
      (strftime (replace_day_1 (now en (clock_reads st)))) params in
  let end_date :=
    dict_get_default "end_date"
      (strftime (yesterday (now en (S (clock_reads st))))) params in
  let run := lambda_handler ev en st in
  (forall s e,
      strptime start_date = Returned s ->
      strptime end_date = Returned e ->
      toordinal s <= toordinal e ->
      fst (parse_and_validate params en st) = Returned (start_date, end_date)
      /\ (exists resp, fst run = Returned resp /\ statusCode resp <> 400)
      /\ (client_init en = None ->
          ce_calls (snd run) =
          (ce_calls st
           ++ [monthly_query start_date end_date (build_filters params)])%list))
  /\ (forall msg,
        rejected start_date end_date msg ->
        fst run = Returned (HttpResponse 400 None
                              ("{" ++ quoted "error" ++ ": "
                               ++ Json.encode_string ("Invalid date: " ++ msg)
                               ++ "}"))
        /\ ce_calls (snd run) = ce_calls st).
Proof.
  intros Hc params start_date end_date run.
  destruct (unix_era_yesterday _ (Hc (S (clock_reads st)))) as (Hy & _ & _).
  pose proof (parse_and_validate_run params en st) as Hpv.
  cbv zeta in Hpv. rewrite Hy in Hpv.
  fold start_date end_date in Hpv.
  split.
  - intros s e Hs He Hle. rewrite Hs, He in Hpv.
    rewrite (date_gt_ltb s e (strptime_valid _ _ Hs) (strptime_valid _ _ He)) in Hpv.
    destruct (Z.ltb_spec (toordinal e) (toordinal s)); [lia|].
    split; [now rewrite Hpv|].
    subst run. rewrite (lambda_handler_accepted _ _ _ _ _ _ Hpv).
    destruct (after_validation_run (params_of ev) start_date end_date en
                (State (S (S (clock_reads st))) (ce_calls st) (table_calls st)))
      as (r & st' & -> & _ & Hst & Hq & _).
    destruct r as [resp|x]; cbn [fst snd].
    + split; [exists resp; split; auto; rewrite (Hst resp eq_refl); discriminate|].
      exact Hq.
    + split; [eexists; split; [reflexivity|discriminate]|]. exact Hq.
  - intros msg Hrej. rewrite <- error_body_text.
    assert (Hx : exists x, parse_and_validate params en st =
                             (Raised x, State (S (S (clock_reads st)))
                                          (ce_calls st) (table_calls st))
                           /\ is_ValueError x = true /\ exn_str x = msg).
    { destruct Hrej as [(x & Hs & ->) | [(s & x & Hs & He & ->)
                                        | (s & e & Hs & He & Hgt & ->)]].
      - rewrite Hs in Hpv. exists x. repeat split; auto.
        eapply strptime_raises_ValueError; eauto.
      - rewrite Hs, He in Hpv. exists x. repeat split; auto.
        eapply strptime_raises_ValueError; eauto.
      - rewrite Hs, He in Hpv.
        rewrite (date_gt_ltb s e (strptime_valid _ _ Hs) (strptime_valid _ _ He))
          in Hpv.
        destruct (Z.ltb_spec (toordinal e) (toordinal s)); [|lia].
        eexists. repeat split; eauto. }
    destruct Hx as (x & Hrun & Hv & <-).
    subst run. rewrite (lambda_handler_rejected _ _ _ _ _ Hrun), Hv.
    split; reflexivity.
Qed.

(** C9 (as the code has it). With both dates omitted and a clock of the
    Unix era, the start default is the first day of the month of the first
    clock reading and the end default is the day before the second clock
    reading, each written as ten characters [YYYY-MM-DD] that [strptime]
    reads back as that date; the clock is read twice per request, once for
    each default. *)
Theorem default_dates_from_two_readings (params : dict) (en : env) (st : state) :
  unix_clock en ->
  dict_get "start_date" params = None ->
  dict_get "end_date" params = None ->
  let first := replace_day_1 (now en (clock_reads st)) in
  let eve := yesterday (now en (S (clock_reads st))) in
  let start_date := strftime first in
  let end_date := strftime eve in
  toordinal eve = toordinal (now en (S (clock_reads st))) - 1
  /\ String.length start_date = 10%nat /\ String.length end_date = 10%nat
  /\ strptime start_date = Returned first
  /\ strptime end_date = Returned eve
  /\ parse_and_validate params en st
     = (if toordinal eve <? toordinal first
        then Raised (Exn ValueError "start_date must be before end_date")
        else Returned (start_date, end_date),
        State (S (S (clock_reads st))) (ce_calls st) (table_calls st)).
Proof.
  intros Hc Hs He first eve start_date end_date.
  destruct (unix_era_valid _ (Hc (clock_reads st))) as [Hv1 _].
  destruct (unix_era_yesterday _ (Hc (S (clock_reads st)))) as (Hy & Hvy & Hord).
  fold eve in Hy, Hvy, Hord.
  assert (Hvf : valid_date first = true) by (apply replace_day_1_valid, Hv1).
  assert (Hps : strptime start_date = Returned first)
    by (apply strptime_strftime, Hvf).
  assert (Hpe : strptime end_date = Returned eve) by (apply strptime_strftime, Hvy).
  repeat split; auto.
  rewrite parse_and_validate_run. cbv zeta. rewrite Hy.
  unfold dict_get_default. rewrite Hs, He.
  fold first. fold start_date. fold end_date. rewrite Hps, Hpe.
  rewrite (date_gt_ltb first eve Hvf Hvy).
  destruct (toordinal eve <? toordinal first); reflexivity.
Qed.

(** C5. When the client raises on the query, [get_aws_billing_data]
    sends the query once and raises one [RuntimeError] whose text carries
    the original message; in the handler that error reaches the outer
    [except], which answers 500 with the JSON body [{"error": <text>}]. *)
Theorem remote_error_becomes_500 (en : env) (st : state)
  (start_date end_date : string) (filters : option filter_expression) (x : exn) :
  client_init en = None ->
  get_cost_and_usage en (monthly_query start_date end_date filters) = Raised x ->
  let text := "Cost Explorer Error: " ++ exn_str x in
  let after := sent st (monthly_query start_date end_date filters) in
  get_aws_billing_data start_date end_date filters en st
  = (Raised (Exn RuntimeError text), after)
  /\ (forall ev st0,
        parse_and_validate (params_of ev) en st0
        = (Returned (start_date, end_date), st) ->
        build_filters (params_of ev) = filters ->
        lambda_handler ev en st0
        = (Returned (HttpResponse 500 None
                       ("{" ++ quoted "error" ++ ": "
                        ++ Json.encode_string text ++ "}")),
           after)
        /\ ce_calls after
           = (ce_calls st0 ++ [monthly_query start_date end_date filters])%list).
Proof.
  intros Hc Hx text after.
  assert (Hg : get_aws_billing_data start_date end_date filters en st
               = (Raised (Exn RuntimeError text), after)).
  { rewrite get_aws_billing_data_run, Hc. cbv zeta. now rewrite Hx. }
  split; [exact Hg|].
  intros ev st0 Hpv Hf.
  rewrite (lambda_handler_accepted _ _ _ _ _ _ Hpv).
  unfold after_validation, bind. rewrite Hf, Hg.
  split; [reflexivity|].
  pose proof (parse_and_validate_run (params_of ev) en st0) as Hrun.
  rewrite Hpv in Hrun. cbv zeta in Hrun.
  assert (Hst : ce_calls st = ce_calls st0).
  { repeat match type of Hrun with
           | _ = match ?c with _ => _ end => destruct c
           | _ = if ?c then _ else _ => destruct c
           end; try discriminate; now injection Hrun as _ _ ->. }
  subst after. unfold sent. cbn. now rewrite Hst.
Qed.

(** C6. When normalization yields no record, the handler answers 200: in
    table mode with the text [No data found] as [text/plain], otherwise
    with the JSON body [{"message": "No data found"}] as
    [application/json].  In table mode the text is put in by the handler:
    [format_table] is not called, and no run of the handler ever calls it
    on an empty sequence. *)
Theorem empty_result_responses (ev : event) (en : env) (st st1 st2 : state)
  (start_date end_date : string) (response : option ce_response) :
  parse_and_validate (params_of ev) en st = (Returned (start_date, end_date), st1) ->
  get_aws_billing_data start_date end_date (build_filters (params_of ev)) en st1
  = (Returned response, st2) ->
  normalize response = Returned [] ->
  lambda_handler ev en st
  = (Returned
       (if table_mode (params_of ev)
        then HttpResponse 200 (Some [("Content-Type", "text/plain")])
               "No data found"
        else HttpResponse 200 (Some [("Content-Type", "application/json")])
               ("{" ++ quoted "message" ++ ": " ++ quoted "No data found" ++ "}")),
     st2)
  /\ table_calls st2 = table_calls st
  /\ format_table [] <> "No data found"
  /\ (forall ev' en' st',
        Forall (fun d => d <> []) (table_calls st') ->
        Forall (fun d : list billing_record => d <> [])
          (table_calls (snd (lambda_handler ev' en' st')))).
Proof.
  intros Hpv Hg Hn. repeat split.
  - rewrite (lambda_handler_accepted _ _ _ _ _ _ Hpv).
    unfold after_validation, bind, lift. rewrite Hg, Hn.
    unfold respond, table_mode, bind, ret.
    destruct (String.eqb _ "table"); reflexivity.
  - pose proof (parse_and_validate_run (params_of ev) en st) as Hrun.
    rewrite Hpv in Hrun. cbv zeta in Hrun.
    assert (Hst : table_calls st1 = table_calls st).
    { repeat match type of Hrun with
             | _ = match ?c with _ => _ end => destruct c
             | _ = if ?c then _ else _ => destruct c
             end; try discriminate; now injection Hrun as _ _ ->. }
    rewrite get_aws_billing_data_run in Hg.
    destruct (client_init en); [discriminate|]. cbv zeta in Hg.
    destruct (get_cost_and_usage en _); [|discriminate].
    injection Hg as _ <-. exact Hst.
  - discriminate.
  - intros ev' en' st' Hall.
    pose proof (parse_and_validate_run (params_of ev') en' st') as Hrun.
    cbv zeta in Hrun.
    destruct (parse_and_validate (params_of ev') en' st') as [[[s e]|x] st1'] eqn:Hpv'.
    + rewrite (lambda_handler_accepted _ _ _ _ _ _ Hpv').
      assert (Hst : table_calls st1' = table_calls st').
      { repeat match type of Hrun with
               | _ = match ?c with _ => _ end => destruct c
               | _ = if ?c then _ else _ => destruct c
               end; try discriminate; now injection Hrun as _ _ ->. }
      destruct (after_validation_run (params_of ev') s e en' st1')
        as (r & st'' & -> & _ & _ & _ & Ht).
      rewrite Hst in Ht. specialize (Ht Hall).
      destruct r; exact Ht.
    + rewrite (lambda_handler_rejected _ _ _ _ _ Hpv').
      assert (Hst : table_calls st1' = table_calls st').
      { repeat match type of Hrun with
               | _ = match ?c with _ => _ end => destruct c
               | _ = if ?c then _ else _ => destruct c
               end; try discriminate; now injection Hrun as _ ->. }
      destruct (is_ValueError x); cbn [snd]; now rewrite Hst.
Qed.

(** C10. Whatever the event, the clock, the client construction and the
    client's answer, the handler returns a response (it raises nothing),
    and the status code of that response is 200, 400 or 500; its body is
    text by the type of the response. *)
Theorem lambda_handler_always_responds (ev : event) (en : env) (st : state) :
  exists (resp : http_response) (st' : state),
    lambda_handler ev en st = (Returned resp, st')
    /\ (statusCode resp = 200 \/ statusCode resp = 400 \/ statusCode resp = 500).
Proof.
  destruct (parse_and_validate (params_of ev) en st) as [[[s e]|x] st1] eqn:Hpv.
  - rewrite (lambda_handler_accepted _ _ _ _ _ _ Hpv).
    destruct (after_validation_run (params_of ev) s e en st1)
      as (r & st' & -> & _ & Hs & _).
    destruct r as [resp|x].
    + exists resp, st'. rewrite (Hs resp eq_refl). eauto.
    + do 2 eexists. split; [reflexivity|]. cbn. eauto.
  - rewrite (lambda_handler_rejected _ _ _ _ _ Hpv).
    destruct (is_ValueError x); do 2 eexists; (split; [reflexivity|]); cbn; eauto.
Qed.

(** ** Rounding *)

Lemma div_half_even_nearest n d :
  0 <= n -> 0 < d ->
  let q := PyFloat.div_half_even n d in
  2 * Z.abs (n - q * d) <= d
  /\ (2 * Z.abs (n - q * d) = d -> Z.even q = true).
Proof.
  intros Hn Hd. unfold PyFloat.div_half_even. cbv zeta.
  pose proof (Z.div_mod n d ltac:(lia)) as E.
  pose proof (Z.mod_pos_bound n d Hd) as B.
  set (q := n / d) in *. set (r := n mod d) in *.
  destruct (Z.compare_spec (2 * r) d) as [Heq|Hlt|Hgt].
  - destruct (Z.even q) eqn:Ev.
    + split; [nia|auto].
    + split; [nia|]. intros _.
      rewrite Z.add_1_r, Z.even_succ, <- Z.negb_even, Ev. reflexivity.
  - split; [nia|]. intros H. exfalso. nia.
  - split; [nia|]. intros H. exfalso. nia.
Qed.

Lemma denom_pos e : 0 < PyFloat.denom e.
Proof.
  unfold PyFloat.denom. destruct (Z.leb_spec 0 e); [lia|].
  apply Z.pow_pos_nonneg; lia.
Qed.

Lemma numer_nonneg m e : 0 <= m -> 0 <= PyFloat.numer m e.
Proof.
  unfold PyFloat.numer. intros Hm. destruct (Z.leb_spec 0 e); [|lia].
  apply Z.mul_nonneg_nonneg; [lia|]. apply Z.pow_nonneg. lia.
Qed.

Lemma round_between a b K :
  0 <= a -> 0 < b ->
  (a < K * b -> PyFloat.div_half_even a b <= K)
  /\ (K * b <= a -> K <= PyFloat.div_half_even a b).
Proof.
  intros Ha Hb. destruct (div_half_even_nearest a b Ha Hb) as [H _].
  cbv zeta in H. set (q := PyFloat.div_half_even a b) in *.
  split; intros HK.
  - destruct (Z_le_gt_dec q K); [auto|]. exfalso.
    assert ((K + 1) * b <= q * b) by nia. lia.
  - destruct (Z_le_gt_dec K q); [auto|]. exfalso.
    assert (q * b <= (K - 1) * b) by nia. lia.
Qed.

Lemma shift_choice N d :
  0 < N -> 0 < d ->
  let s0 := Z.max 0 (Z.log2 N - Z.log2 d - 53) in
  let s1 := if N <? 2 ^ 53 * (d * 2 ^ s0) then s0 else s0 + 1 in
  0 <= s1
  /\ N < 2 ^ 53 * (d * 2 ^ s1)
  /\ (0 < s1 -> 2 ^ 52 * (d * 2 ^ s1) <= N).
Proof.
  intros HN Hd s0 s1.
  destruct (Z.log2_spec N HN) as [HN1 HN2].
  destruct (Z.log2_spec d Hd) as [Hd1 Hd2].
  pose proof (Z.log2_nonneg N) as LN0. pose proof (Z.log2_nonneg d) as Ld0.
  set (LN := Z.log2 N) in *. set (Ld := Z.log2 d) in *.
  assert (Hs0 : 0 <= s0) by (subst s0; lia).
  assert (P0 : 0 < 2 ^ s0) by (apply Z.pow_pos_nonneg; lia).
  assert (Hsucc : 2 ^ (s0 + 1) = 2 * 2 ^ s0) by (rewrite Z.pow_add_r by lia; lia).
  subst s1. destruct (Z.ltb_spec N (2 ^ 53 * (d * 2 ^ s0))) as [Hlt|Hge].
  - split; [lia|]. split; [exact Hlt|]. intros Hpos.
    assert (E : s0 = LN - Ld - 53) by (subst s0; lia).
    assert (E2 : 2 ^ LN = 2 ^ 52 * (2 ^ (Z.succ Ld) * 2 ^ s0)).
    { rewrite <- !Z.pow_add_r by lia. f_equal. lia. }
    assert (d * 2 ^ s0 <= 2 ^ (Z.succ Ld) * 2 ^ s0) by nia.
    lia.
  - split; [lia|]. rewrite Hsucc. split; [|intros _; lia].
    assert (E2 : 2 ^ (53 + Ld + s0 + 1) = 2 ^ 53 * (2 ^ Ld * (2 * 2 ^ s0))).
    { rewrite <- Hsucc. rewrite <- !Z.pow_add_r by lia. f_equal. lia. }
    assert (2 ^ (Z.succ LN) <= 2 ^ (53 + Ld + s0 + 1))
      by (apply Z.pow_le_mono_r; subst s0; lia).
    assert (2 ^ Ld * (2 * 2 ^ s0) <= d * (2 * 2 ^ s0)) by nia.
    lia.
Qed.

(** [of_ratio] is correctly rounded. *)
Lemma of_ratio_nearest neg n d :
  0 < n -> 0 < d -> nearest_float neg n d (PyFloat.of_ratio neg n d).
Proof.
  intros Hn Hd. unfold nearest_float, PyFloat.of_ratio.
  destruct (Z.eqb_spec n 0); [lia|].
  assert (HN : 0 < n * 2 ^ 1074) by (apply Z.mul_pos_pos; [lia|reflexivity]).
  set (N := n * 2 ^ 1074) in *.
  destruct (shift_choice N d HN Hd) as (Hs1 & Hlt & Hge).
  cbv zeta in *.
  set (s0 := Z.max 0 (Z.log2 N - Z.log2 d - 53)) in *.
  set (s1 := if N <? 2 ^ 53 * (d * 2 ^ s0) then s0 else s0 + 1) in *.
  assert (P1 : 0 < 2 ^ s1) by (apply Z.pow_pos_nonneg; lia).
  assert (HB : 0 < d * 2 ^ s1) by (apply Z.mul_pos_pos; lia).
  destruct (div_half_even_nearest N (d * 2 ^ s1) ltac:(lia) HB) as [Herr _].
  destruct (round_between N (d * 2 ^ s1) (2 ^ 53) ltac:(lia) HB) as [Hup _].
  destruct (round_between N (d * 2 ^ s1) (2 ^ 52) ltac:(lia) HB) as [_ Hlow].
  destruct (round_between N (d * 2 ^ s1) 0 ltac:(lia) HB) as [_ Hzero].
  cbv zeta in Herr.
  set (m1 := PyFloat.div_half_even N (d * 2 ^ s1)) in *.
  assert (Hm1 : 0 <= m1 <= 2 ^ 53) by (split; [apply Hzero|apply Hup]; lia).
  assert (Hsucc : 2 ^ (s1 + 1) = 2 * 2 ^ s1) by (rewrite Z.pow_add_r by lia; lia).
  unfold PyFloat.emin, PyFloat.emax.
  destruct (Z.eqb_spec m1 (2 ^ 53)) as [E|NE].
  - destruct (Z.ltb_spec (971 - -1074) (s1 + 1)) as [Hov|Hfin].
    + split; [reflexivity|].
      assert (Hp : 2 ^ (971 - -1074) <= 2 ^ s1) by (apply Z.pow_le_mono_r; lia).
      rewrite E in Herr. nia.
    + split; [reflexivity|]. split; [lia|]. split; [lia|]. split; [left; lia|].
      replace (s1 + 1 + -1074 - -1074) with (s1 + 1) by lia.
      rewrite Hsucc. rewrite E in Herr.
      replace (2 ^ 52 * (2 * 2 ^ s1) * d) with (2 ^ 53 * (d * 2 ^ s1)) by lia.
      lia.
  - destruct (Z.ltb_spec (971 - -1074) s1) as [Hov|Hfin].
    + split; [reflexivity|].
      assert (Hp : 2 * 2 ^ (971 - -1074) <= 2 ^ s1).
      { replace (2 * 2 ^ (971 - -1074)) with (2 ^ (971 - -1074 + 1)) by reflexivity.
        apply Z.pow_le_mono_r; lia. }
      specialize (Hge ltac:(lia)). nia.
    + split; [reflexivity|]. split; [lia|]. split; [lia|].
      split.
      * destruct (Z.eq_dec s1 0) as [Z0|NZ]; [right; lia|left].
        apply Hlow. apply Hge. lia.
      * replace (s1 + -1074 - -1074) with s1 by lia.
        replace (m1 * 2 ^ s1 * d) with (m1 * (d * 2 ^ s1)) by lia.
        lia.
Qed.

(** ** Normalization: decimal amounts, rounded to two places *)

Lemma digit_char_facts d :
  0 <= d <= 9 ->
  PyStr.is_digit (PyStr.digit_char d) = true
  /\ PyStr.digit_val (PyStr.digit_char d) = d
  /\ PyFloat.is_space (PyStr.digit_char d) = false
  /\ PyFloat.is_underscore (PyStr.digit_char d) = false
  /\ (PyStr.code (PyStr.digit_char d) =? 45) = false
  /\ (PyStr.code (PyStr.digit_char d) =? 43) = false
  /\ (forall r w, String.eqb (PyStr.lower (String (PyStr.digit_char d) r)) w = true ->
                  w <> "inf" /\ w <> "infinity" /\ w <> "nan").
Proof.
  intros Hd.
  assert (H : d = 0 \/ d = 1 \/ d = 2 \/ d = 3 \/ d = 4 \/ d = 5 \/ d = 6
              \/ d = 7 \/ d = 8 \/ d = 9) by lia.
  repeat destruct H as [H|H]; subst d; repeat split; try reflexivity;
    intros E; subst w; discriminate.
Qed.

Lemma span_digits_digits ds rest :
  digits ds ->
  (match rest with [] => True | c :: _ => PyStr.is_digit c = false end) ->
  PyFloat.span_digits (map PyStr.digit_char ds ++ rest)
  = (map PyStr.digit_char ds, rest).
Proof.
  intros Hds Hrest.
  induction Hds as [|d ds Hd _ IH]; cbn [map app PyFloat.span_digits].
  - destruct rest as [|c r]; [reflexivity|].
    cbn [PyFloat.span_digits]. now rewrite Hrest.
  - destruct (digit_char_facts d Hd) as (-> & _). now rewrite IH.
Qed.

Lemma digits_val_number ds :
  digits ds -> PyFloat.digits_val (map PyStr.digit_char ds) = number ds.
Proof.
  unfold PyFloat.digits_val, number. generalize 0 as acc.
  intros acc Hds. revert acc.
  induction Hds as [|d ds Hd _ IH]; intros acc; cbn [map fold_left];
    [reflexivity|].
  destruct (digit_char_facts d Hd) as (_ & -> & _). apply IH.
Qed.

Lemma number_nonneg ds : digits ds -> 0 <= number ds.
Proof.
  unfold number. assert (G : forall acc, 0 <= acc -> digits ds ->
    0 <= fold_left (fun acc d => 10 * acc + d) ds acc).
  { induction ds as [|d ds IH]; intros acc Ha Hds; cbn [fold_left]; [exact Ha|].
    apply Forall_cons_iff in Hds. destruct Hds as [Hd Hr].
    apply IH; [lia|exact Hr]. }
  intros H. apply G; [lia|exact H].
Qed.

Lemma lstrip_id l :
  (match l with [] => True | c :: _ => PyFloat.is_space c = false end) ->
  PyFloat.lstrip l = l.
Proof.
  destruct l as [|c r]; cbn [PyFloat.lstrip]; [reflexivity|]. now intros ->.
Qed.

Lemma strip_id l :
  Forall (fun c => PyFloat.is_space c = false) l -> PyFloat.strip l = l.
Proof.
  intros H. unfold PyFloat.strip.
  rewrite (lstrip_id l) by (destruct H; auto).
  rewrite lstrip_id; [apply rev_involutive|].
  apply Forall_rev in H. destruct H; auto.
Qed.

Lemma drop_underscores_id l : forall prev,
  PyFloat.is_underscore prev = false ->
  Forall (fun c => PyFloat.is_underscore c = false) l ->
  PyFloat.drop_underscores prev l = Some l.
Proof.
  induction l as [|c r IH]; intros prev Hp Hl; cbn [PyFloat.drop_underscores].
  - now rewrite Hp.
  - inversion Hl as [|? ? Hc Hr]; subst. rewrite Hc, Hp. cbn [andb].
    now rewrite (IH c Hc Hr).
Qed.

Lemma decimal_chars_clean neg ip fp :
  digits ip -> digits fp ->
  Forall (fun c => PyFloat.is_space c = false) (decimal_chars neg ip fp)
  /\ Forall (fun c => PyFloat.is_underscore c = false) (decimal_chars neg ip fp).
Proof.
  intros Hi Hf.
  assert (G : forall ds, digits ds ->
            Forall (fun c => PyFloat.is_space c = false) (map PyStr.digit_char ds)
            /\ Forall (fun c => PyFloat.is_underscore c = false)
                 (map PyStr.digit_char ds)).
  { intros ds Hds. split; apply Forall_map; eapply Forall_impl; try exact Hds;
      intros d Hd; cbv beta; destruct (digit_char_facts d Hd) as (_ & _ & ? & ? & _);
      assumption. }
  destruct (G ip Hi) as [Hi1 Hi2]. destruct (G fp Hf) as [Hf1 Hf2].
  unfold decimal_chars. rewrite !Forall_app.
  repeat split; auto.
  - destruct neg; repeat constructor.
  - destruct fp; [constructor|]. constructor; [reflexivity|exact Hf1].
  - destruct neg; repeat constructor.
  - destruct fp; [constructor|]. constructor; [reflexivity|exact Hf2].
Qed.

(** [float] reads a decimal numeral as the number it writes. *)
Lemma float_of_decimal_text neg ip fp :
  digits ip -> digits fp -> ip <> [] \/ fp <> [] ->
  PyFloat.float_of_string (decimal_text neg ip fp)
  = Returned (PyFloat.of_decimal neg (number (ip ++ fp))
                (- Z.of_nat (List.length fp))).
Proof.
  intros Hi Hf Hne. unfold PyFloat.float_of_string, decimal_text.
  rewrite list_ascii_of_string_of_list_ascii.
  destruct (decimal_chars_clean neg ip fp Hi Hf) as [Hs Hu].
  rewrite (strip_id _ Hs), (drop_underscores_id _ (PyStr.chr 0) eq_refl Hu).
  set (body := (map PyStr.digit_char ip
                ++ match fp with
                   | [] => []
                   | _ => "."%char :: map PyStr.digit_char fp
                   end)%list).
  assert (Hsign : PyFloat.take_sign (decimal_chars neg ip fp) = (neg, body)).
  { unfold decimal_chars. fold body. destruct neg; [reflexivity|].
    cbn [app]. subst body. destruct Hi as [|d ip Hd Hi].
    - destruct fp as [|d fp]; [destruct Hne; contradiction|]. reflexivity.
    - cbn [map app PyFloat.take_sign].
      destruct (digit_char_facts d Hd) as (_ & _ & _ & _ & -> & -> & _).
      reflexivity. }
  assert (Hword : forall w, (w = "inf" \/ w = "infinity" \/ w = "nan") ->
                            String.eqb (PyFloat.lower_text body) w = false).
  { intros w Hw. unfold PyFloat.lower_text. subst body.
    destruct Hi as [|d ip Hd Hi].
    - destruct fp as [|d fp]; [destruct Hne; contradiction|].
      cbn [map app string_of_list_ascii].
      destruct Hw as [ -> | [ -> | -> ] ]; reflexivity.
    - cbn [map app string_of_list_ascii].
      destruct (String.eqb _ w) eqn:E; [|reflexivity].
      destruct (digit_char_facts d Hd) as (_ & _ & _ & _ & _ & _ & Hl).
      destruct (Hl _ _ E) as (H1 & H2 & H3).
      destruct Hw as [ -> | [ -> | -> ] ]; contradiction. }
  unfold PyFloat.parse_float. rewrite Hsign.
  rewrite !Hword by auto. cbn [orb].
  unfold PyFloat.parse_number. subst body.
  destruct fp as [|d fp].
  - rewrite (span_digits_digits ip [] Hi I). cbv iota beta.
    rewrite !app_nil_r.
    destruct ip as [|d ip]; [destruct Hne; contradiction|].
    rewrite (digits_val_number _ Hi).
    reflexivity.
  - rewrite (span_digits_digits ip ("."%char :: map PyStr.digit_char (d :: fp))
               Hi eq_refl).
    change (PyStr.code "." =? 46) with true. cbv iota.
    rewrite <- (app_nil_r (map PyStr.digit_char (d :: fp))).
    rewrite (span_digits_digits (d :: fp) [] Hf I).
    rewrite <- map_app.
    rewrite digits_val_number by (apply Forall_app; auto).
    rewrite length_map.
    replace (PyFloat.is_nil (map PyStr.digit_char ip)
             && PyFloat.is_nil (map PyStr.digit_char (d :: fp)))%bool
      with false by (cbn; now rewrite Bool.andb_false_r).
    reflexivity.
Qed.

Lemma of_ratio_reads neg n d :
  0 <= n -> 0 < d ->
  finite_form (PyFloat.of_ratio neg n d)
  /\ float_of_decimal neg n d (PyFloat.of_ratio neg n d).
Proof.
  intros Hn Hd. unfold float_of_decimal.
  destruct (Z.eqb_spec n 0) as [->|Hne].
  - unfold PyFloat.of_ratio. cbn. split; [split; [lia|unfold PyFloat.emin; lia]|
                                          reflexivity].
  - pose proof (of_ratio_nearest neg n d ltac:(lia) Hd) as H.
    split; [|exact H].
    unfold nearest_float, finite_form in *.
    destruct (PyFloat.of_ratio neg n d); auto. lia.
Qed.

Lemma of_decimal_reads neg c k :
  0 <= c ->
  finite_form (PyFloat.of_decimal neg c (- Z.of_nat k))
  /\ float_of_decimal neg c (10 ^ Z.of_nat k)
       (PyFloat.of_decimal neg c (- Z.of_nat k)).
Proof.
  intros Hc. unfold PyFloat.of_decimal.
  destruct (Z.leb_spec 0 (- Z.of_nat k)) as [H0|H0].
  - assert (E : Z.of_nat k = 0) by lia. rewrite E.
    change (- 0) with 0. change (10 ^ 0) with 1. rewrite Z.mul_1_r.
    apply of_ratio_reads; lia.
  - rewrite Z.opp_involutive. apply of_ratio_reads; [lia|].
    apply Z.pow_pos_nonneg; lia.
Qed.

Lemma hundredths_nearest m e :
  0 <= m -> PyFloat.emin <= e ->
  0 <= PyFloat.hundredths m e
  /\ nearest_hundredth m e (PyFloat.hundredths m e).
Proof.
  intros Hm He. unfold PyFloat.hundredths.
  pose proof (numer_nonneg m e Hm) as Hn. pose proof (denom_pos e) as Hd.
  destruct (round_between (100 * PyFloat.numer m e) (PyFloat.denom e) 0
              ltac:(lia) Hd) as [_ H0].
  split; [apply H0; lia|].
  destruct (div_half_even_nearest (100 * PyFloat.numer m e) (PyFloat.denom e)
              ltac:(lia) Hd) as [H1 H2].
  cbv zeta in H1, H2.
  set (h := PyFloat.div_half_even (100 * PyFloat.numer m e) (PyFloat.denom e)) in *.
  unfold nearest_hundredth, scaled_value, PyFloat.emin in *. cbv zeta.
  unfold PyFloat.numer, PyFloat.denom in *.
  destruct (Z.leb_spec 0 e) as [Hpos|Hneg].
  - assert (Ep : 2 ^ (e - -1074) = 2 ^ e * 2 ^ 1074)
      by (rewrite <- Z.pow_add_r by lia; f_equal; lia).
    rewrite Ep.
    assert (P : 0 < 2 ^ 1074) by reflexivity.
    set (Q := 2 ^ 1074) in *. set (T := 2 ^ e) in *.
    replace (100 * (m * (T * Q)) - h * Q) with ((100 * (m * T) - h * 1) * Q) by ring.
    rewrite Z.abs_mul, (Z.abs_eq Q) by lia.
    split; [nia|]. intros Ht. apply H2. nia.
  - assert (Ep : 2 ^ 1074 = 2 ^ (e - -1074) * 2 ^ (- e))
      by (rewrite <- Z.pow_add_r by lia; f_equal; lia).
    assert (P : 0 < 2 ^ (e - -1074)) by (apply Z.pow_pos_nonneg; lia).
    rewrite Ep.
    set (Q := 2 ^ (e - -1074)) in *. set (D := 2 ^ (- e)) in *.
    replace (100 * (m * Q) - h * (Q * D)) with ((100 * m - h * D) * Q) by ring.
    rewrite Z.abs_mul, (Z.abs_eq Q) by lia.
    split; [nia|]. intros Ht. apply H2. nia.
Qed.

(** [round(x, 2)] rounds to two places. *)
Lemma round2_rounds x :
  finite_form x -> rounded_to_2_places x (PyFloat.round2 x).
Proof.
  destruct x as [|s|neg m e]; cbn; auto.
  intros [Hm He]. destruct (hundredths_nearest m e Hm He) as [H0 Hn].
  exists (PyFloat.hundredths m e). repeat split; auto; try apply Hn.
  apply of_ratio_reads; lia.
Qed.

Lemma span_digits_are_digits l ds r :
  PyFloat.span_digits l = (ds, r) ->
  Forall (fun c => PyStr.is_digit c = true) ds.
Proof.
  revert ds r. induction l as [|c l IH]; intros ds r; cbn [PyFloat.span_digits].
  - intros [= <- <-]. constructor.
  - destruct (PyStr.is_digit c) eqn:Hc.
    + destruct (PyFloat.span_digits l) as [ds' r'] eqn:E.
      intros [= <- <-]. constructor; [exact Hc|]. eapply IH. reflexivity.
    + intros [= <- <-]. constructor.
Qed.

Lemma digits_val_nonneg ds :
  Forall (fun c => PyStr.is_digit c = true) ds -> 0 <= PyFloat.digits_val ds.
Proof.
  unfold PyFloat.digits_val.
  assert (G : forall acc, 0 <= acc ->
            Forall (fun c => PyStr.is_digit c = true) ds ->
            0 <= fold_left (fun acc c => 10 * acc + PyStr.digit_val c) ds acc).
  { induction ds as [|c ds IH]; intros acc Ha Hds; cbn [fold_left]; [exact Ha|].
    apply Forall_cons_iff in Hds. destruct Hds as [Hc Hr].
    apply IH; [|exact Hr].
    unfold PyStr.is_digit, PyStr.digit_val in *. cbv zeta in Hc.
    apply andb_prop in Hc. destruct Hc as [Hc _]. apply Z.leb_le in Hc. lia. }
  intros H. apply G; [lia|exact H].
Qed.

Lemma of_decimal_form neg c p : 0 <= c -> finite_form (PyFloat.of_decimal neg c p).
Proof.
  intros Hc. unfold PyFloat.of_decimal.
  destruct (Z.leb_spec 0 p).
  - apply of_ratio_reads; [|lia].
    apply Z.mul_nonneg_nonneg; [lia|]. apply Z.pow_nonneg. lia.
  - apply of_ratio_reads; [lia|]. apply Z.pow_pos_nonneg; lia.
Qed.

(** Whatever [float] returns is a NaN, an infinity or a finite float in
    the form above. *)
Lemma float_of_string_form s x :
  PyFloat.float_of_string s = Returned x -> finite_form x.
Proof.
  unfold PyFloat.float_of_string.
  destruct (PyFloat.drop_underscores _ _) as [l|]; [|discriminate].
  destruct (PyFloat.parse_float l) as [y|] eqn:Hp; [|discriminate].
  intros [= <-]. revert Hp. unfold PyFloat.parse_float.
  destruct (PyFloat.take_sign l) as [neg body].
  destruct (_ || _)%bool; [intros [= <-]; exact I|].
  destruct (String.eqb _ "nan"); [intros [= <-]; exact I|].
  unfold PyFloat.parse_number.
  destruct (PyFloat.span_digits body) as [ip r1] eqn:E1.
  pose proof (span_digits_are_digits _ _ _ E1) as Hip.
  assert (G : forall fp r2,
             Forall (fun c => PyStr.is_digit c = true) fp ->
             (let mant := PyFloat.digits_val (ip ++ fp)%list in
              let scale := - Z.of_nat (List.length fp) in
              if (PyFloat.is_nil ip && PyFloat.is_nil fp)%bool then None
              else match r2 with
                   | [] => Some (PyFloat.of_decimal neg mant scale)
                   | c :: r3 =>
                       if (PyStr.code c =? 101) || (PyStr.code c =? 69)
                       then let '(eneg, r4) := PyFloat.take_sign r3 in
                            let '(ep, r5) := PyFloat.span_digits r4 in
                            if (PyFloat.is_nil ep || negb (PyFloat.is_nil r5))%bool
                            then None
                            else let ex := PyFloat.digits_val ep in
                                 Some (PyFloat.of_decimal neg mant
                                         (scale + (if eneg then - ex else ex)))
                       else None
                   end) = Some y -> finite_form y).
  { intros fp r2 Hfp. cbv zeta.
    assert (Hm : 0 <= PyFloat.digits_val (ip ++ fp)%list)
      by (apply digits_val_nonneg, Forall_app; auto).
    destruct (_ && _)%bool; [discriminate|].
    destruct r2 as [|c r3].
    - intros [= <-]. now apply of_decimal_form.
    - destruct (_ || _)%bool; [|discriminate].
      destruct (PyFloat.take_sign r3) as [eneg r4].
      destruct (PyFloat.span_digits r4) as [ep r5].
      destruct (_ || _)%bool; [discriminate|].
      intros [= <-]. now apply of_decimal_form. }
  destruct r1 as [|c r].
  - apply (G [] []). constructor.
  - destruct (PyStr.code c =? 46).
    + destruct (PyFloat.span_digits r) as [fp r2] eqn:E2.
      apply (G fp r2). eapply span_digits_are_digits; eauto.
    + apply (G [] (c :: r)). constructor.
Qed.

Lemma traverse_related {A B} (f : A -> outcome B) (R : A -> B -> Prop) l :
  Forall (fun a => exists b, f a = Returned b /\ R a b) l ->
  exists bs, traverse f l = Returned bs /\ Forall2 R l bs.
Proof.
  induction 1 as [|a l (b & Hb & Hr) _ (bs & Hbs & Hall)]; cbn [traverse].
  - exists []. split; [reflexivity|constructor].
  - rewrite Hb, Hbs. exists (b :: bs). split; [reflexivity|now constructor].
Qed.

(** What becomes of a group with a decimal amount. *)
Lemma record_of_decimal_group g service neg ip fp :
  decimal_group g service neg ip fp ->
  exists item,
    record_of_group g = Returned item
    /\ Service item = service
    /\ exists x,
         float_of_decimal neg (number (ip ++ fp)) (10 ^ Z.of_nat (List.length fp)) x
         /\ rounded_to_2_places x (Cost item).
Proof.
  intros ((rest & Hk) & Hi & Hf & Hne & Ha).
  assert (Hn : 0 <= number (ip ++ fp)) by (apply number_nonneg, Forall_app; auto).
  destruct (of_decimal_reads neg (number (ip ++ fp)) (List.length fp) Hn)
    as [Hform Hread].
  exists (Rec service
            (PyFloat.round2
               (PyFloat.of_decimal neg (number (ip ++ fp))
                  (- Z.of_nat (List.length fp))))).
  unfold record_of_group.
  rewrite Hk, Ha, (float_of_decimal_text neg ip fp Hi Hf Hne).
  split; [reflexivity|]. split; [reflexivity|].
  eexists. split; [exact Hread|]. now apply round2_rounds.
Qed.

(** C7. Normalization flattens the response: it visits the time-period
    buckets in order and the groups of each bucket in order, so its result
    is the traversal of the concatenated groups; a group becomes a record
    with its first key as the service and its amount read by [float] and
    rounded by [round(_, 2)] as the cost; an absent response and a
    response with no buckets give the empty sequence.  The cost of every
    record is its amount rounded to two places: the float read from the
    hundredth nearest to the parsed amount.  A decimal numeral is parsed
    as the number it writes: [float] returns the float nearest to it.  So
    a response whose groups all have a key and a decimal numeral as the
    amount normalizes to one record per group, in order, each with the
    first key and the amount parsed as a decimal and rounded to two
    places. *)
Theorem normalize_flattens_in_order :
  normalize None = Returned []
  /\ normalize (Some (Response [])) = Returned []
  /\ (forall r, normalize (Some r)
                = traverse record_of_group (flat_map Groups (ResultsByTime r)))
  /\ (forall g item,
        record_of_group g = Returned item <->
        exists rest x,
          Keys g = Service item :: rest
          /\ PyFloat.float_of_string (Amount g) = Returned x
          /\ Cost item = PyFloat.round2 x)
  /\ (forall g item,
        record_of_group g = Returned item ->
        exists x,
          PyFloat.float_of_string (Amount g) = Returned x
          /\ rounded_to_2_places x (Cost item))
  /\ (forall neg ip fp,
        digits ip -> digits fp -> ip <> [] \/ fp <> [] ->
        exists x,
          PyFloat.float_of_string (decimal_text neg ip fp) = Returned x
          /\ float_of_decimal neg (number (ip ++ fp))
               (10 ^ Z.of_nat (List.length fp)) x)
  /\ (forall r,
        Forall (fun g => exists service neg ip fp, decimal_group g service neg ip fp)
          (flat_map Groups (ResultsByTime r)) ->
        exists items,
          normalize (Some r) = Returned items
          /\ Forall2
               (fun g item =>
                  exists neg ip fp x,
                    decimal_group g (Service item) neg ip fp
                    /\ float_of_decimal neg (number (ip ++ fp))
                         (10 ^ Z.of_nat (List.length fp)) x
                    /\ rounded_to_2_places x (Cost item))
               (flat_map Groups (ResultsByTime r)) items).
Proof.
  assert (Hflat : forall r, normalize (Some r)
                    = traverse record_of_group (flat_map Groups (ResultsByTime r))).
  { intros r. unfold normalize. rewrite normalize_loop.
    destruct (traverse record_of_group (flat_map Groups (ResultsByTime r))); auto. }
  assert (Hrec : forall g item,
             record_of_group g = Returned item ->
             exists rest x,
               Keys g = Service item :: rest
               /\ PyFloat.float_of_string (Amount g) = Returned x
               /\ Cost item = PyFloat.round2 x).
  { intros g item. unfold record_of_group. intros H.
    destruct (Keys g) as [|service rest]; [discriminate|].
    destruct (PyFloat.float_of_string (Amount g)) as [x|e]; [|discriminate].
    injection H as <-. cbn. eauto. }
  split; [reflexivity|]. split; [reflexivity|]. split; [exact Hflat|].
  split; [|split; [|split]].
  - intros g item. split; [apply Hrec|].
    intros (rest & x & HK & HF & HC). unfold record_of_group.
    rewrite HK, HF. destruct item as [sv c]. cbn in *. now subst.
  - intros g item H. destruct (Hrec g item H) as (rest & x & _ & Hx & ->).
    exists x. split; [exact Hx|].
    apply round2_rounds. eapply float_of_string_form; eauto.
  - intros neg ip fp Hi Hf Hne. eexists.
    split; [apply float_of_decimal_text; auto|].
    apply of_decimal_reads. apply number_nonneg, Forall_app; auto.
  - intros r Hall. rewrite Hflat. apply traverse_related.
    eapply Forall_impl; [|exact Hall]. cbv beta.
    intros g (service & neg & ip & fp & Hg).
    destruct (record_of_decimal_group g service neg ip fp Hg)
      as (item & Hitem & Hsv & x & Hx & Hc).
    exists item. split; [exact Hitem|].
    exists neg, ip, fp, x. rewrite Hsv. auto.
Qed.

Lemma normalize_flattens_in_order_witness :
  exists items,
    normalize (Some two_groups) = Returned items
    /\ Forall2
         (fun g item =>
            exists neg ip fp x,
              decimal_group g (Service item) neg ip fp
              /\ float_of_decimal neg (number (ip ++ fp))
                   (10 ^ Z.of_nat (List.length fp)) x
              /\ rounded_to_2_places x (Cost item))
         (flat_map Groups (ResultsByTime two_groups)) items.
Proof.
  destruct normalize_flattens_in_order as (_ & _ & _ & _ & _ & _ & H).
  apply (H two_groups).
  assert (D : forall ds, forallb (fun d => (0 <=? d) && (d <=? 9)) ds = true ->
                         digits ds).
  { intros ds Hds. apply Forall_forall. intros d Hd.
    rewrite forallb_forall in Hds. specialize (Hds d Hd).
    apply andb_prop in Hds. destruct Hds as [H1 H2].
    apply Z.leb_le in H1, H2. lia. }
  constructor; [|constructor; [|constructor]].
  - exists "EC2", false, [1; 2], [3; 4; 5].
    split; [exists []; reflexivity|].
    split; [apply D; reflexivity|]. split; [apply D; reflexivity|].
    split; [left; discriminate|reflexivity].
  - exists "S3", false, [1], [2].
    split; [exists []; reflexivity|].
    split; [apply D; reflexivity|]. split; [apply D; reflexivity|].
    split; [left; discriminate|reflexivity].
Defined.

(** C4 (as the code has it). [round(x, 2)] takes the exact value of the
    float to the nearest hundredth [h], an exact tie going to the even
    hundredth, and returns the float nearest to [h / 100].  The groups
    [("EC2", "12.345"), ("S3", "1.2")] normalize to the records
    [EC2, 12.35] and [S3, 1.2], and the table made from them has the EC2
    row first. *)
Theorem round2_is_half_even :
  (forall neg m e,
      0 <= m ->
      let h := PyFloat.hundredths m e in
      let err := Z.abs (100 * PyFloat.numer m e - h * PyFloat.denom e) in
      PyFloat.round2 (FFin neg m e) = PyFloat.of_ratio neg h 100
      /\ 2 * err <= PyFloat.denom e
      /\ (2 * err = PyFloat.denom e -> Z.even h = true)
      /\ (0 < h -> nearest_float neg h 100 (PyFloat.round2 (FFin neg m e))))
  /\ PyFloat.float_of_string "12.35" = Returned (usd 1235)
  /\ PyFloat.float_of_string "1.2" = Returned (usd 120)
  /\ normalize (Some two_groups) = Returned [Rec "EC2" (usd 1235); Rec "S3" (usd 120)]
  /\ nth 2 (table_lines [Rec "EC2" (usd 1235); Rec "S3" (usd 120)]) ""
     = "| EC2 | 12.35 |"
  /\ nth 2 (table_lines [Rec "S3" (usd 120); Rec "EC2" (usd 1235)]) ""
     = "| EC2 | 12.35 |".
Proof.
  split.
  - intros neg m e Hm h err. split; [reflexivity|].
    assert (H : 2 * err <= PyFloat.denom e
                /\ (2 * err = PyFloat.denom e -> Z.even h = true)).
    { subst h err. unfold PyFloat.hundredths.
      apply div_half_even_nearest.
      - pose proof (numer_nonneg m e Hm). lia.
      - apply denom_pos. }
    destruct H as [H1 H2]. repeat split; auto.
    intros Hh. apply of_ratio_nearest; [exact Hh|lia].
  - repeat split; vm_compute; reflexivity.
Qed.

Lemma round2_is_half_even_witness :
  PyFloat.round2 (FFin false 1 (-3)) = PyFloat.of_ratio false 12 100
  /\ Z.even (PyFloat.hundredths 1 (-3)) = true.
Proof.
  destruct round2_is_half_even as [H _].
  destruct (H false 1 (-3) ltac:(lia)) as (Hr & _ & He & _).
  split.
  - exact Hr.
  - apply He. reflexivity.
Defined.

(** The amount [0.125] is a float exactly and lies midway between 0.12
    and 0.13: the handler's record has 0.12, rounding half up gives 0.13. *)
Lemma half_up_fails_on_a_tie :
  PyFloat.float_of_string "0.125" = Returned (FFin false (2 ^ 52) (-55))
  /\ record_of_group (Group ["EC2"] "0.125") = Returned (Rec "EC2" (usd 12))
  /\ round2_half_up (FFin false (2 ^ 52) (-55)) = usd 13
  /\ usd 12 <> usd 13.
Proof.
  repeat split; try (vm_compute; reflexivity).
  vm_compute. discriminate.
Qed.

(** ** Column widths *)

Lemma py_max_spec (l : list nat) :
  l <> [] -> In (py_max l) l /\ Forall (fun n => (n <= py_max l)%nat) l.
Proof.
  destruct l as [|x r]; [contradiction|]. intros _. unfold py_max.
  assert (G : forall r x, (In (fold_left Nat.max r x) (x :: r))
                          /\ (x <= fold_left Nat.max r x)%nat
                          /\ Forall (fun n => (n <= fold_left Nat.max r x)%nat) r).
  { clear. induction r as [|y r IH]; intros x; simpl.
    - repeat split; auto.
    - destruct (IH (Nat.max x y)) as (Hin & Hle & Hall).
      repeat split.
      + destruct Hin as [Hin|Hin]; [|right; right; exact Hin].
        destruct (Nat.max_spec x y) as [[_ E]|[_ E]]; rewrite E in *;
          [right; left; exact Hin | left; exact Hin].
      + lia.
      + constructor; [lia|exact Hall]. }
  destruct (G r x) as (Hin & Hle & Hall). split; [exact Hin|].
  constructor; auto.
Qed.

(** C3 (what the code does). The widths are maxima over the data values
    alone: each is the length of some value of its column and bounds all
    of them, and the header labels take no part.  With the one record
    [EC2, 1.00] the service column is 3 wide and the cost column 4, below
    the 7 and 10 characters of the labels, so the header line is longer
    than the separator and the data line. *)
Theorem widths_ignore_header_labels :
  (forall data, data <> [] ->
     (exists item, In item data /\ service_width data = PyStr.len (Service item))
     /\ (exists item, In item data /\ cost_width data = PyStr.len (cost_text item))
     /\ Forall (fun item => (PyStr.len (Service item) <= service_width data)%nat
                            /\ (PyStr.len (cost_text item) <= cost_width data)%nat)
          data)
  /\ service_width [Rec "EC2" (usd 100)] = 3%nat
  /\ PyStr.len "Service" = 7%nat
  /\ cost_width [Rec "EC2" (usd 100)] = 4%nat
  /\ PyStr.len "Cost (USD)" = 10%nat
  /\ table_lines [Rec "EC2" (usd 100)]
     = ["| Service | Cost (USD) |"; "|-----|------|"; "| EC2 | 1.00 |"].
Proof.
  split; [|repeat split; vm_compute; reflexivity].
  intros data Hne.
  assert (Hs : map (fun item => PyStr.len (Service item)) data <> [])
    by (destruct data; [contradiction|discriminate]).
  assert (Hc : map (fun item => PyStr.len (cost_text item)) data <> [])
    by (destruct data; [contradiction|discriminate]).
  destruct (py_max_spec _ Hs) as [Hins Halls].
  destruct (py_max_spec _ Hc) as [Hinc Hallc].
  repeat split.
  - apply in_map_iff in Hins. destruct Hins as (item & E & Hin).
    exists item. split; [exact Hin|]. unfold service_width. now rewrite E.
  - apply in_map_iff in Hinc. destruct Hinc as (item & E & Hin).
    exists item. split; [exact Hin|]. unfold cost_width. now rewrite E.
  - rewrite Forall_forall in *. intros item Hin. split.
    + apply Halls. apply in_map_iff. eauto.
    + apply Hallc. apply in_map_iff. eauto.
Qed.

(** ** The clock *)

(** Around midnight the two defaults come from two different days: the
    query runs from March 1st to March 31st, which is what neither
    reading gives on its own, and the clock has been read twice. *)
Lemma defaults_read_the_clock_twice :
  let en := Env around_midnight None (answering None) in
  let run := lambda_handler (Event Absent) en initial in
  clock_reads (snd run) = 2%nat
  /\ ce_calls (snd run) = [monthly_query "2025-03-01" "2025-03-31" None]
  /\ defaults_of_one_reading (around_midnight 0) = Returned ("2025-03-01", "2025-03-30")
  /\ defaults_of_one_reading (around_midnight 1) = Returned ("2025-04-01", "2025-03-31").
Proof. repeat split; vm_compute; reflexivity. Qed.

(** ** Two runs end to end *)

(** The request of the specification's example: March 2025 as a table,
    the client answering one group [EC2 = 100.00]. *)
Example march_table_run :
  fst (lambda_handler (Event (Mapping march_request))
         (Env march_15 None
            (answering (Some (Response [ResultByTime [Group ["EC2"] "100.00"]]))))
         initial)
  = Returned
      (HttpResponse 200 (Some [("Content-Type", "text/plain")])
         (PyStr.join PyStr.newline
            ["| Service | Cost (USD) |"; "|-----|--------|"; "| EC2 | 100.00 |"])).
Proof. vm_compute. reflexivity. Qed.

(** The event of the source's local test: a region filter, JSON output. *)
Example local_test_run :
  let ev := Event (Mapping [("start_date", "2025-03-03"); ("end_date", "2025-03-31");
                            ("regions", "us-east-1"); ("format", "json")]) in
  let run := lambda_handler ev (Env march_15 None (answering (Some two_groups)))
               initial in
  ce_calls (snd run)
  = [monthly_query "2025-03-03" "2025-03-31"
       (Some (Dimensions "REGION" ["us-east-1"]))]
  /\ fst run
     = Returned
         (HttpResponse 200 (Some [("Content-Type", "application/json")])
            ("{" ++ quoted "data" ++ ": [{" ++ quoted "Service" ++ ": "
             ++ quoted "EC2" ++ ", " ++ quoted "Cost (USD)" ++ ": 12.35}, {"
             ++ quoted "Service" ++ ": " ++ quoted "S3" ++ ", "
             ++ quoted "Cost (USD)" ++ ": 1.2}]}")).
Proof. split; vm_compute; reflexivity. Qed.

(** ** The theorems at concrete inputs *)

Lemma dates_validated_before_query_witness :
  (exists resp,
      fst (lambda_handler (Event (Mapping march_request))
             (Env march_15 None (answering (Some two_groups))) initial)
      = Returned resp /\ statusCode resp <> 400)
  /\ ce_calls (snd (lambda_handler (Event (Mapping inverted_request))
                      (Env march_15 None (answering (Some two_groups))) initial))
     = [].
Proof.
  split.
  - destruct (dates_validated_before_query (Event (Mapping march_request))
                (Env march_15 None (answering (Some two_groups))) initial
                (fun _ => eq_refl)) as [Haccept _].
    destruct (Haccept (Date 2025 3 1) (Date 2025 3 31)
                ltac:(vm_compute; reflexivity) ltac:(vm_compute; reflexivity)
                ltac:(vm_compute; discriminate)) as (_ & H & _).
    exact H.
  - destruct (dates_validated_before_query (Event (Mapping inverted_request))
                (Env march_15 None (answering (Some two_groups))) initial
                (fun _ => eq_refl)) as [_ Hreject].
    apply (Hreject "start_date must be before end_date").
    right. right. exists (Date 2025 3 31), (Date 2025 3 1).
    repeat split; vm_compute; reflexivity.
Defined.

Lemma build_filters_combines_witness :
  is_dict filtered_request
  /\ build_filters filtered_request
     = Some (And [Dimensions "SERVICE" ["EC2"; "S3"]; Tags "env" ["prod"]]).
Proof.
  assert (Hd : is_dict filtered_request).
  { unfold is_dict, filtered_request. cbn [map fst].
    repeat constructor; cbn [In]; intuition discriminate. }
  split; [exact Hd|].
  destruct (build_filters_combines filtered_request Hd) as (_ & _ & Hmany & _).
  apply Hmany. vm_compute. apply le_n.
Defined.

Lemma remote_error_becomes_500_witness :
  statusCode
    (match fst (lambda_handler (Event (Mapping march_request))
                  (Env march_15 None (failing "AccessDeniedException")) initial)
     with Returned resp => resp | Raised _ => HttpResponse 0 None "" end)
  = 500.
Proof.
  destruct (remote_error_becomes_500
              (Env march_15 None (failing "AccessDeniedException"))
              (State 2 [] []) "2025-03-01" "2025-03-31" None
              (Exn ClientError "AccessDeniedException") eq_refl eq_refl)
    as [_ H].
  destruct (H (Event (Mapping march_request)) initial
              ltac:(vm_compute; reflexivity) ltac:(vm_compute; reflexivity))
    as [Hrun _].
  rewrite Hrun. reflexivity.
Defined.

Lemma empty_result_responses_witness :
  fst (lambda_handler (Event (Mapping march_request))
         (Env march_15 None (answering (Some (Response [])))) initial)
  = Returned (HttpResponse 200 (Some [("Content-Type", "text/plain")])
                "No data found").
Proof.
  destruct (empty_result_responses (Event (Mapping march_request))
              (Env march_15 None (answering (Some (Response []))))
              initial (State 2 [] [])
              (State 2 [monthly_query "2025-03-01" "2025-03-31" None] [])
              "2025-03-01" "2025-03-31" (Some (Response []))
              ltac:(vm_compute; reflexivity) ltac:(vm_compute; reflexivity)
              ltac:(reflexivity))
    as [Hrun _].
  rewrite Hrun. reflexivity.
Defined.

Lemma format_table_rows_sorted_stable_witness :
  exists rows,
    Permutation rows [Rec "S3" (usd 120); Rec "EC2" (usd 1235)]
    /\ StronglySorted (fun a b => PyFloat.le (Cost b) (Cost a) = true) rows.
Proof.
  destruct (format_table_rows_sorted_stable
              [Rec "S3" (usd 120); Rec "EC2" (usd 1235)]
              ltac:(discriminate)
              ltac:(repeat constructor))
    as (rows & _ & Hperm & Hsorted & _).
  exists rows. split; [exact Hperm | exact Hsorted].
Defined.

Lemma default_dates_from_two_readings_witness :
  parse_and_validate [] (Env march_15 None (answering None)) initial
  = (Returned ("2025-03-01", "2025-03-14"), State 2 [] []).
Proof.
  destruct (default_dates_from_two_readings []
              (Env march_15 None (answering None)) initial
              (fun _ => eq_refl) eq_refl eq_refl)
    as (_ & _ & _ & _ & _ & Hrun).
  exact Hrun.
Defined.

(** * Further properties of the code *)

Lemma respond_cases params data en st :
  respond params data en st =
  if table_mode params
  then match data with
       | [] => (Returned (HttpResponse 200 text_plain "No data found"), st)
       | _ => (Returned (HttpResponse 200 text_plain (format_table data)),
               logged st data)
       end
  else (Returned (HttpResponse 200 application_json
                    (match data with
                     | [] => Json.dumps (JDict [("message", JStr "No data found")])
                     | _ => data_body data
                     end)), st).
Proof.
  unfold respond, table_mode, bind, ret, call_format_table, logged.
  destruct (String.eqb _ "table"); [|reflexivity].
  destruct data; reflexivity.
Qed.

Lemma after_validation_cases params start_date end_date en st :
  after_validation params start_date end_date en st =
  match client_init en with
  | Some x => (Raised x, st)
  | None =>
      let q := monthly_query start_date end_date (build_filters params) in
      match get_cost_and_usage en q with
      | Raised x =>
          (Raised (Exn RuntimeError ("Cost Explorer Error: " ++ exn_str x)),
           sent st q)
      | Returned response =>
          match normalize response with
          | Raised x => (Raised x, sent st q)
          | Returned data => respond params data en (sent st q)
          end
      end
  end.
Proof.
  unfold after_validation, bind, lift. rewrite get_aws_billing_data_run.
  destruct (client_init en); [reflexivity|]. cbv zeta.
  destruct (get_cost_and_usage en _); [|reflexivity].
  destruct (normalize _); reflexivity.
Qed.

Lemma parse_and_validate_state params en st :
  snd (parse_and_validate params en st)
  = State (S (S (clock_reads st))) (ce_calls st) (table_calls st).
Proof.
  rewrite parse_and_validate_run. cbv zeta.
  repeat match goal with
         | |- context [match ?c with _ => _ end] => destruct c
         end; reflexivity.
Qed.

Lemma parse_and_validate_accepts params en st start_date end_date st1 :
  parse_and_validate params en st = (Returned (start_date, end_date), st1) ->
  exists s e,
    strptime start_date = Returned s /\ strptime end_date = Returned e
    /\ toordinal s <= toordinal e.
Proof.
  rewrite parse_and_validate_run. cbv zeta.
  destruct (minus_one_day _) as [y|x]; [|discriminate].
  destruct (strptime (dict_get_default "start_date" _ params)) as [s|x] eqn:Hs;
    [|discriminate].
  destruct (strptime (dict_get_default "end_date" _ params)) as [e|x] eqn:He;
    [|discriminate].
  destruct (date_gt s e) eqn:Hgt; [discriminate|].
  intros [= <- <- _]. exists s, e. repeat split; auto.
  rewrite (date_gt_ltb s e (strptime_valid _ _ Hs) (strptime_valid _ _ He)) in Hgt.
  apply Z.ltb_ge in Hgt. exact Hgt.
Qed.

Lemma parse_and_validate_raises params en st x st1 :
  parse_and_validate params en st = (Raised x, st1) ->
  exn_kind x = ValueError \/ exn_kind x = OverflowError.
Proof.
  rewrite parse_and_validate_run. cbv zeta.
  destruct (minus_one_day _) as [y|x'] eqn:Hm.
  - destruct (strptime (dict_get_default "start_date" _ params)) as [s|x'] eqn:Hs.
    + destruct (strptime (dict_get_default "end_date" _ params)) as [e|x'] eqn:He.
      * destruct (date_gt s e); [|discriminate]. intros [= <- _]. now left.
      * intros [= <- _]. left. apply strptime_raises_ValueError in He.
        unfold is_ValueError in He. destruct (exn_kind x'); try discriminate; auto.
    + intros [= <- _]. left. apply strptime_raises_ValueError in Hs.
      unfold is_ValueError in Hs. destruct (exn_kind x'); try discriminate; auto.
  - intros [= <- _]. right. unfold minus_one_day in Hm.
    repeat match type of Hm with
           | (if ?c then _ else _) = _ => destruct c
           end; try discriminate. now injection Hm as <-.
Qed.

Lemma after_validation_effects params start_date end_date en st :
  let run := after_validation params start_date end_date en st in
  let q := monthly_query start_date end_date (build_filters params) in
  clock_reads (snd run) = clock_reads st
  /\ (ce_calls (snd run) = ce_calls st
      \/ ce_calls (snd run) = (ce_calls st ++ [q])%list).
Proof.
  cbv zeta. rewrite after_validation_cases.
  destruct (client_init en); [cbn; auto|]. cbv zeta.
  destruct (get_cost_and_usage en _); [|cbn; auto].
  destruct (normalize _) as [data|x]; [|cbn; auto].
  rewrite respond_cases.
  destruct (table_mode _); [destruct data|]; cbn; auto.
Qed.

(** X1. Every run of the handler reads the clock exactly twice, and it
    sends at most one billing query; a query that is sent carries the
    filter built from the parameters and two dates that parse as calendar
    dates with the start not after the end. *)
Theorem handler_reads_clock_twice_and_queries_once (ev : event) (en : env)
  (st : state) :
  let run := lambda_handler ev en st in
  clock_reads (snd run) = S (S (clock_reads st))
  /\ (ce_calls (snd run) = ce_calls st
      \/ exists start_date end_date s e,
           ce_calls (snd run)
           = (ce_calls st
              ++ [monthly_query start_date end_date (build_filters (params_of ev))])%list
           /\ strptime start_date = Returned s
           /\ strptime end_date = Returned e
           /\ toordinal s <= toordinal e).
Proof.
  cbv zeta.
  pose proof (parse_and_validate_state (params_of ev) en st) as Hst.
  destruct (parse_and_validate (params_of ev) en st) as [[[sd ed]|x] st1] eqn:Hpv;
    cbn [snd] in Hst; subst st1.
  - rewrite (lambda_handler_accepted _ _ _ _ _ _ Hpv).
    destruct (parse_and_validate_accepts _ _ _ _ _ _ Hpv) as (s & e & Hs & He & Hle).
    destruct (after_validation_effects (params_of ev) sd ed en
                (State (S (S (clock_reads st))) (ce_calls st) (table_calls st)))
      as [Hc Hq].
    destruct (after_validation (params_of ev) sd ed en _) as [[resp|x] st'];
      cbn [snd clock_reads ce_calls] in *;
      (split; [exact Hc|]);
      (destruct Hq as [Hq|Hq]; [left; exact Hq|right; exists sd, ed, s, e; auto]).
  - rewrite (lambda_handler_rejected _ _ _ _ _ Hpv).
    destruct (is_ValueError x); cbn; auto.
Qed.

(** The defaults, once both dates are omitted. *)
Lemma default_dates_run (params : dict) (en : env) (st : state) :
  unix_clock en ->
  dict_get "start_date" params = None ->
  dict_get "end_date" params = None ->
  let first := replace_day_1 (now en (clock_reads st)) in
  let eve := yesterday (now en (S (clock_reads st))) in
  parse_and_validate params en st
  = (if toordinal eve <? toordinal first
     then Raised (Exn ValueError "start_date must be before end_date")
     else Returned (strftime first, strftime eve),
     State (S (S (clock_reads st))) (ce_calls st) (table_calls st)).
Proof.
  intros Hc Hs He first eve.
  destruct (unix_era_valid _ (Hc (clock_reads st))) as [Hv1 _].
  destruct (unix_era_yesterday _ (Hc (S (clock_reads st)))) as (Hy & Hvy & _).
  fold eve in Hy, Hvy.
  assert (Hvf : valid_date first = true) by (apply replace_day_1_valid, Hv1).
  rewrite parse_and_validate_run. cbv zeta. rewrite Hy.
  unfold dict_get_default. rewrite Hs, He. fold first.
  rewrite (strptime_strftime first Hvf), (strptime_strftime eve Hvy).
  rewrite (date_gt_ltb first eve Hvf Hvy).
  destruct (toordinal eve <? toordinal first); reflexivity.
Qed.

(** X2. With both dates omitted and both clock readings in the same month,
    a request served on the first day of a month is answered with 400
    [start_date must be before end_date]: the start default is that day and
    the end default the day before it.  No query is sent. *)
Theorem defaults_are_rejected_on_the_first_of_a_month (ev : event) (en : env)
  (st : state) :
  unix_clock en ->
  dict_get "start_date" (params_of ev) = None ->
  dict_get "end_date" (params_of ev) = None ->
  let first := now en (clock_reads st) in
  let second := now en (S (clock_reads st)) in
  year first = year second -> month first = month second -> day second = 1 ->
  lambda_handler ev en st
  = (Returned (HttpResponse 400 None
                 (error_body "Invalid date: start_date must be before end_date")),
     State (S (S (clock_reads st))) (ce_calls st) (table_calls st)).
Proof.
  intros Hc Hs He first second Hy Hm Hd.
  pose proof (default_dates_run (params_of ev) en st Hc Hs He) as Hrun.
  cbv zeta in Hrun.
  destruct (unix_era_yesterday _ (Hc (S (clock_reads st)))) as (_ & _ & Hord).
  fold first second in Hrun, Hord.
  assert (E : replace_day_1 first = second).
  { unfold replace_day_1. rewrite Hy, Hm, <- Hd. now destruct second. }
  rewrite E in Hrun.
  destruct (Z.ltb_spec (toordinal (yesterday second)) (toordinal second)); [|lia].
  rewrite (lambda_handler_rejected _ _ _ _ _ Hrun). reflexivity.
Qed.

(** X3. With both dates omitted and both clock readings in the same month,
    a request served after the first day of the month passes validation
    with the first of the month and the day before today, is not answered
    with 400, and the query carries these two dates. *)
Theorem defaults_are_accepted_after_the_first (ev : event) (en : env) (st : state) :
  unix_clock en ->
  dict_get "start_date" (params_of ev) = None ->
  dict_get "end_date" (params_of ev) = None ->
  let first := now en (clock_reads st) in
  let second := now en (S (clock_reads st)) in
  year first = year second -> month first = month second -> 1 < day second ->
  let start_date := strftime (Date (year second) (month second) 1) in
  let end_date := strftime (Date (year second) (month second) (day second - 1)) in
  let run := lambda_handler ev en st in
  fst (parse_and_validate (params_of ev) en st) = Returned (start_date, end_date)
  /\ (exists resp, fst run = Returned resp /\ statusCode resp <> 400)
  /\ (client_init en = None ->
      ce_calls (snd run)
      = (ce_calls st
         ++ [monthly_query start_date end_date (build_filters (params_of ev))])%list).
Proof.
  intros Hc Hs He first second Hy Hm Hd start_date end_date run.
  pose proof (default_dates_run (params_of ev) en st Hc Hs He) as Hrun.
  cbv zeta in Hrun. fold first second in Hrun.
  assert (E1 : replace_day_1 first = Date (year second) (month second) 1)
    by (unfold replace_day_1; now rewrite Hy, Hm).
  assert (E2 : yesterday second = Date (year second) (month second) (day second - 1)).
  { unfold yesterday, minus_one_day.
    destruct (Z.ltb_spec 1 (day second)); [reflexivity|lia]. }
  rewrite E1, E2 in Hrun.
  assert (Hord : toordinal (Date (year second) (month second) 1)
                 <= toordinal (Date (year second) (month second) (day second - 1)))
    by (unfold toordinal; cbn [year month day]; lia).
  destruct (Z.ltb_spec
              (toordinal (Date (year second) (month second) (day second - 1)))
              (toordinal (Date (year second) (month second) 1))); [lia|].
  fold start_date end_date in Hrun.
  split; [now rewrite Hrun|].
  subst run. rewrite (lambda_handler_accepted _ _ _ _ _ _ Hrun).
  destruct (after_validation_run (params_of ev) start_date end_date en
              (State (S (S (clock_reads st))) (ce_calls st) (table_calls st)))
    as (r & st' & -> & _ & Hst & Hq & _).
  destruct r as [resp|x]; cbn [fst snd].
  - split; [exists resp; split; auto; rewrite (Hst resp eq_refl); discriminate|].
    exact Hq.
  - split; [eexists; split; [reflexivity|discriminate]|]. exact Hq.
Qed.

(** X4. After validation has accepted the dates: when [boto3.client] raises,
    the handler answers 500 with that exception's own text (it is not given
    the Cost Explorer prefix) and no query is sent; when the response cannot
    be normalized, whatever the class of the exception ([IndexError] of an
    empty key list, [ValueError] of an amount that is no number), the handler
    answers 500 with its text, after the one query, and [format_table] is not
    called. *)
Theorem failures_after_validation_are_500 (ev : event) (en : env) (st st1 : state)
  (start_date end_date : string) :
  parse_and_validate (params_of ev) en st = (Returned (start_date, end_date), st1) ->
  let q := monthly_query start_date end_date (build_filters (params_of ev)) in
  (forall x, client_init en = Some x ->
     lambda_handler ev en st
     = (Returned (HttpResponse 500 None (error_body (exn_str x))), st1)
     /\ ce_calls st1 = ce_calls st)
  /\ (forall response x,
        client_init en = None ->
        get_cost_and_usage en q = Returned response ->
        normalize response = Raised x ->
        lambda_handler ev en st
        = (Returned (HttpResponse 500 None (error_body (exn_str x))), sent st1 q)
        /\ table_calls (sent st1 q) = table_calls st).
Proof.
  intros Hpv q.
  pose proof (parse_and_validate_state (params_of ev) en st) as Hst.
  rewrite Hpv in Hst. cbn [snd] in Hst.
  split.
  - intros x Hx. rewrite (lambda_handler_accepted _ _ _ _ _ _ Hpv).
    rewrite after_validation_cases, Hx. split; [reflexivity|].
    rewrite Hst. reflexivity.
  - intros response x Hc Hr Hn. rewrite (lambda_handler_accepted _ _ _ _ _ _ Hpv).
    rewrite after_validation_cases, Hc. cbv zeta. fold q. rewrite Hr, Hn.
    split; [reflexivity|]. rewrite Hst. reflexivity.
Qed.


Lemma traverse_raises {A B} (f : A -> outcome B) (l : list A) x :
  traverse f l = Raised x <->
  exists pre a post,
    l = (pre ++ a :: post)%list
    /\ (exists bs, traverse f pre = Returned bs)
    /\ f a = Raised x.
Proof.
  split.
  - revert x. induction l as [|a l IH]; intros x; simpl; [discriminate|].
    destruct (f a) as [b|e] eqn:Ha.
    + destruct (traverse f l) as [bs|e] eqn:Hl; [discriminate|].
      intros [= <-]. destruct (IH e eq_refl) as (pre & a' & post & -> & (bs & Hpre) & Hf).
      exists (a :: pre), a', post. repeat split; auto.
      simpl. rewrite Ha, Hpre. eauto.
    + intros [= <-]. exists [], a, l. repeat split; auto. simpl. eauto.
  - intros (pre & a & post & -> & (bs & Hpre) & Hf).
    rewrite traverse_app, Hpre. simpl. now rewrite Hf.
Qed.

Lemma traverse_returns_length {A B} (f : A -> outcome B) (l : list A) bs :
  traverse f l = Returned bs -> List.length bs = List.length l.
Proof.
  revert bs. induction l as [|a l IH]; intros bs; simpl.
  - now intros [= <-].
  - destruct (f a); [|discriminate]. destruct (traverse f l); [|discriminate].
    intros [= <-]. simpl. f_equal. now apply IH.
Qed.

(** X5. Normalization raises exactly when some group is bad: the exception
    is that of the first group, in bucket then group order, whose key list
    is empty ([IndexError]) or whose amount [float] rejects ([ValueError]),
    all groups before it being good; no partial result is returned.  When it
    returns, there is one record per group. *)
Theorem normalize_stops_at_the_first_bad_group (r : ce_response) :
  let groups := flat_map Groups (ResultsByTime r) in
  (forall x,
      normalize (Some r) = Raised x <->
      exists pre g post,
        groups = (pre ++ g :: post)%list
        /\ (exists items, traverse record_of_group pre = Returned items)
        /\ ((Keys g = [] /\ x = Exn IndexError "list index out of range")
            \/ (Keys g <> [] /\ PyFloat.float_of_string (Amount g) = Raised x)))
  /\ (forall items,
        normalize (Some r) = Returned items ->
        List.length items = List.length groups).
Proof.
  cbv zeta. unfold normalize. rewrite normalize_loop.
  set (groups := flat_map Groups (ResultsByTime r)).
  assert (Hrec : forall g x,
             record_of_group g = Raised x <->
             ((Keys g = [] /\ x = Exn IndexError "list index out of range")
              \/ (Keys g <> [] /\ PyFloat.float_of_string (Amount g) = Raised x))).
  { intros g x. unfold record_of_group. destruct (Keys g) as [|k ks].
    - split.
      + intros [= <-]. left. auto.
      + intros [[_ ->]|[H _]]; [reflexivity|contradiction].
    - destruct (PyFloat.float_of_string (Amount g)) as [v|e].
      + split; [discriminate|]. intros [[H _]|[_ H]]; discriminate.
      + split.
        * intros [= <-]. right. split; [discriminate|reflexivity].
        * intros [[H _]|[_ [= <-]]]; [discriminate|reflexivity]. }
  split.
  - intros x. split.
    + intros H.
      assert (Ht : traverse record_of_group groups = Raised x)
        by (destruct (traverse record_of_group groups); [discriminate|exact H]).
      apply traverse_raises in Ht.
      destruct Ht as (pre & g & post & E & Hpre & Hg).
      exists pre, g, post. repeat split; auto. now apply Hrec.
    + intros (pre & g & post & E & Hpre & Hg).
      assert (Ht : traverse record_of_group groups = Raised x).
      { apply traverse_raises. exists pre, g, post. repeat split; auto.
        now apply Hrec. }
      now rewrite Ht.
  - intros items H.
    destruct (traverse record_of_group groups) as [bs|e] eqn:Ht; [|discriminate].
    injection H as <-. simpl. eapply traverse_returns_length; eauto.
Qed.

Lemma string_app_assoc (a b c : string) : ((a ++ b) ++ c = a ++ (b ++ c))%string.
Proof. induction a as [|x a IH]; simpl; [reflexivity|now rewrite IH]. Qed.

Lemma string_app_length (a b : string) :
  String.length (a ++ b) = (String.length a + String.length b)%nat.
Proof. induction a as [|x a IH]; simpl; [reflexivity|now rewrite IH]. Qed.

Lemma data_body_text data :
  data_body data
  = "{" ++ quoted "data" ++ ": ["
    ++ PyStr.join ", " (map (fun item => Json.dumps (json_of_record item)) data)
    ++ "]}".
Proof.
  unfold data_body. cbn [Json.dumps map PyStr.join fst snd].
  rewrite map_map.
  set (J := PyStr.join ", " (map (fun item => Json.dumps (json_of_record item)) data)).
  cbn. now rewrite string_app_assoc.
Qed.


(** X6. When normalization yields at least one record, the handler answers
    200: in table mode with the table of [format_table] as [text/plain],
    [format_table] being called once on the records; otherwise with the JSON
    body [{"data": [...]}] as [application/json], the records in the order
    normalization produced them (not sorted). *)
Theorem data_responses (ev : event) (en : env) (st st1 st2 : state)
  (start_date end_date : string) (response : option ce_response)
  (data : list billing_record) :
  parse_and_validate (params_of ev) en st = (Returned (start_date, end_date), st1) ->
  get_aws_billing_data start_date end_date (build_filters (params_of ev)) en st1
  = (Returned response, st2) ->
  normalize response = Returned data ->
  data <> [] ->
  lambda_handler ev en st
  = if table_mode (params_of ev)
    then (Returned (HttpResponse 200 text_plain (format_table data)),
          logged st2 data)
    else (Returned (HttpResponse 200 application_json
                      ("{" ++ quoted "data" ++ ": ["
                       ++ PyStr.join ", " (map (fun item => Json.dumps (json_of_record item)) data)
                       ++ "]}")),
          st2).
Proof.
  intros Hpv Hg Hn Hne.
  rewrite (lambda_handler_accepted _ _ _ _ _ _ Hpv).
  unfold after_validation, bind, lift. rewrite Hg, Hn, respond_cases.
  destruct data as [|d ds]; [contradiction|].
  destruct (table_mode _); [reflexivity|].
  now rewrite <- data_body_text.
Qed.

(** X7. The handler's response has one of three shapes: status 200 with a
    single Content-Type header, [text/plain] when the format parameter
    lowercased is [table] and [application/json] otherwise; status 400 with
    no headers and the text of the [ValueError] of validation behind
    [Invalid date: ]; status 500 with no headers and an error body. *)
Theorem response_shape (ev : event) (en : env) (st : state) :
  match fst (lambda_handler ev en st) with
  | Raised _ => False
  | Returned resp =>
      (statusCode resp = 200
       /\ headers resp = (if table_mode (params_of ev)
                          then text_plain else application_json))
      \/ (statusCode resp = 400 /\ headers resp = None
          /\ exists x, fst (parse_and_validate (params_of ev) en st) = Raised x
                       /\ exn_kind x = ValueError
                       /\ body resp = error_body ("Invalid date: " ++ exn_str x))
      \/ (statusCode resp = 500 /\ headers resp = None
          /\ exists x, body resp = error_body (exn_str x))
  end.
Proof.
  destruct (parse_and_validate (params_of ev) en st) as [[[sd ed]|x] st1] eqn:Hpv.
  - rewrite (lambda_handler_accepted _ _ _ _ _ _ Hpv), after_validation_cases.
    destruct (client_init en) as [x|];
      [cbn [fst statusCode headers body]; right; right;
       repeat split; eexists; reflexivity|].
    cbv zeta.
    destruct (get_cost_and_usage en _) as [response|x];
      [|cbn [fst statusCode headers body]; right; right;
        repeat split; eexists; reflexivity].
    destruct (normalize response) as [data|x];
      [|cbn [fst statusCode headers body]; right; right;
        repeat split; eexists; reflexivity].
    rewrite respond_cases.
    destruct (table_mode _); [destruct data|];
      cbn [fst statusCode headers body]; left; auto.
  - rewrite (lambda_handler_rejected _ _ _ _ _ Hpv).
    destruct (parse_and_validate_raises _ _ _ _ _ Hpv) as [Hk|Hk];
      unfold is_ValueError; rewrite Hk; cbn [fst statusCode headers body].
    + right. left. repeat split; auto. exists x. auto.
    + right. right. repeat split; eexists; reflexivity.
Qed.

(** ** More on the filter builder *)
Lemma filter_filter_implied {A} (f g : A -> bool) (l : list A) :
  (forall a, f a = true -> g a = true) ->
  filter f (filter g l) = filter f l.
Proof.
  intros H. induction l as [|a l IH]; [reflexivity|]. simpl.
  destruct (g a) eqn:Hg; simpl.
  - now rewrite IH.
  - destruct (f a) eqn:Hf; [|exact IH]. apply H in Hf. congruence.
Qed.

Lemma is_dict_filter (f : string * string -> bool) (d : dict) :
  is_dict d -> is_dict (filter f d).
Proof.
  unfold is_dict. induction d as [|kv d IH]; simpl; intros Hnd; [constructor|].
  inversion Hnd as [|? ? Hnotin Hnd']; subst.
  destruct (f kv); [|auto]. simpl. constructor; [|auto].
  intros Hin. apply Hnotin. apply in_map_iff in Hin.
  destruct Hin as (kv' & E & Hin'). apply filter_In in Hin'.
  apply in_map_iff. exists kv'. tauto.
Qed.

(** X8. Parameters other than services, regions and tag_... have no effect
    on the filter: dropping them from the mapping gives the same result. *)
Theorem build_filters_ignores_other_parameters (params : dict) :
  is_dict params ->
  build_filters (filter recognized params) = build_filters params.
Proof.
  intros Hd.
  rewrite (build_filters_predicates _ (is_dict_filter recognized params Hd)).
  rewrite (build_filters_predicates _ Hd).
  assert (E : predicates (filter recognized params) = predicates params).
  { unfold predicates.
    rewrite !filter_filter_implied; [reflexivity| | |];
      intros kv H; unfold recognized; rewrite H;
      repeat rewrite Bool.orb_true_r; reflexivity. }
  now rewrite E.
Qed.

Lemma predicates_have_values (params : dict) :
  Forall leaf_with_values (predicates params).
Proof.
  unfold predicates. rewrite !Forall_app. repeat split;
    apply Forall_forall; intros p Hp; apply in_map_iff in Hp;
    destruct Hp as (kv & <- & Hin); apply filter_In in Hin;
    destruct Hin as [_ Hk]; unfold predicate_of.
  - rewrite Hk. split; [now left|apply split_not_nil].
  - destruct (is_services kv) eqn:Es.
    + rewrite (services_is_not_regions kv Es) in Hk. discriminate.
    + rewrite Hk. split; [now right|apply split_not_nil].
  - rewrite (tag_is_not_services kv Hk), (tag_is_not_regions kv Hk).
    apply split_not_nil.
Qed.

(** X9. A filter returned by [build_filters] is one predicate or an AND node
    over at least two predicates, never nested; every predicate is on
    SERVICE, REGION or a tag and has at least one value.  No filter is
    returned only when the mapping has no recognized parameter. *)
Theorem build_filters_result_is_well_formed (params : dict) :
  is_dict params ->
  match build_filters params with
  | Some f => well_formed_filter f
  | None => forall kv, In kv params -> recognized kv = false
  end.
Proof.
  intros Hd. rewrite (build_filters_predicates params Hd).
  pose proof (predicates_have_values params) as Hv.
  pose proof (predicates_count params) as Hc.
  destruct (predicates params) as [|p [|q r]].
  - intros kv Hin. destruct (recognized kv) eqn:Hr; [|reflexivity].
    assert (Hf : In kv (filter recognized params)) by (apply filter_In; auto).
    destruct (filter recognized params); [contradiction|discriminate].
  - inversion Hv as [|? ? Hp _]; subst.
    unfold well_formed_filter. destruct p; auto. contradiction.
  - unfold well_formed_filter. split; [simpl; lia|exact Hv].
Qed.

(** ** The geometry of the table *)
Lemma widths_bound data :
  data <> [] ->
  Forall (fun item => (PyStr.len (Service item) <= service_width data)%nat) data
  /\ Forall (fun item => (PyStr.len (cost_text item) <= cost_width data)%nat) data.
Proof.
  intros Hne.
  assert (Hs : map (fun item => PyStr.len (Service item)) data <> [])
    by (destruct data; [contradiction|discriminate]).
  assert (Hc : map (fun item => PyStr.len (cost_text item)) data <> [])
    by (destruct data; [contradiction|discriminate]).
  destruct (py_max_spec _ Hs) as [_ Halls].
  destruct (py_max_spec _ Hc) as [_ Hallc].
  split; rewrite Forall_forall in *; intros item Hin.
  - apply Halls. apply in_map_iff. eauto.
  - apply Hallc. apply in_map_iff. eauto.
Qed.

Lemma replicate_length n c : String.length (PyStr.replicate n c) = n.
Proof. induction n; simpl; auto. Qed.

Lemma ljust_length w s : PyStr.len (PyStr.ljust w s) = Nat.max w (PyStr.len s).
Proof.
  unfold PyStr.ljust, PyStr.len. rewrite string_app_length, replicate_length. lia.
Qed.

Lemma rjust_length w s : PyStr.len (PyStr.rjust w s) = Nat.max w (PyStr.len s).
Proof.
  unfold PyStr.rjust, PyStr.len. rewrite string_app_length, replicate_length. lia.
Qed.

Lemma table_row_length sw cw item :
  PyStr.len (table_row sw cw item)
  = (Nat.max sw (PyStr.len (Service item))
     + Nat.max cw (PyStr.len (cost_text item)) + 7)%nat.
Proof.
  unfold table_row. cbv zeta. unfold PyStr.len at 1.
  rewrite !string_app_length.
  fold (PyStr.len (PyStr.ljust sw (Service item))).
  fold (PyStr.len (PyStr.rjust cw (cost_text item))).
  rewrite ljust_length, rjust_length. simpl. lia.
Qed.

(** X10. For a non-empty sequence the table has two lines more than there
    are records; the separator and every data row are exactly
    [service_width + cost_width + 7] characters long, and the header line
    is [max service_width 7 + max cost_width 10 + 7] long. *)
Theorem table_lines_have_one_width (data : list billing_record) :
  data <> [] ->
  let sw := service_width data in
  let cw := cost_width data in
  List.length (table_lines data) = (2 + List.length data)%nat
  /\ Forall (fun line => PyStr.len line = (sw + cw + 7)%nat) (tl (table_lines data))
  /\ PyStr.len (hd "" (table_lines data)) = (Nat.max sw 7 + Nat.max cw 10 + 7)%nat.
Proof.
  intros Hne sw cw. rewrite table_lines_rows. fold sw cw. cbn [hd tl List.length].
  pose proof (sorted_reverse_perm Cost data) as Hperm.
  repeat split.
  - rewrite length_map, (Permutation_length Hperm). reflexivity.
  - constructor.
    + unfold separator_row, PyStr.len. rewrite !string_app_length, !replicate_length.
      simpl. lia.
    + apply Forall_map. apply (Permutation_Forall (x := data)); [now symmetry|].
      destruct (widths_bound data Hne) as [Hs Hc].
      rewrite Forall_forall in *. intros item Hin. rewrite table_row_length.
      specialize (Hs item Hin). specialize (Hc item Hin). fold sw in Hs. fold cw in Hc.
      lia.
  - unfold header_row. unfold PyStr.len at 1. rewrite !string_app_length.
    fold (PyStr.len (PyStr.ljust sw "Service")).
    fold (PyStr.len (PyStr.rjust cw "Cost (USD)")).
    rewrite ljust_length, rjust_length. simpl. lia.
Qed.

(** ** More on date validation *)
Lemma matches_after_year y tail :
  0 <= y <= 9999 ->
  Strptime.matches (pad4 y ++ "-" ++ tail)
  = map (fun '(m, d, s5) => (y, m, d, s5)) (Strptime.matches_m_d tail).
Proof.
  intros Hy. unfold Strptime.matches.
  change (pad4 y ++ "-" ++ tail)
    with (String (PyStr.digit_char (y / 1000))
            (String (PyStr.digit_char (y / 100 mod 10))
               (String (PyStr.digit_char (y mod 100 / 10))
                  (String (PyStr.digit_char (y mod 100 mod 10))
                     (String "-" tail))))).
  unfold Strptime.group_Y.
  destruct (digit_char_is_digit (y / 1000)) as [D1 V1];
    [Z.div_mod_to_equations; lia|].
  destruct (digit_char_is_digit (y / 100 mod 10)) as [D2 V2];
    [Z.div_mod_to_equations; lia|].
  destruct (digit_char_is_digit (y mod 100 / 10)) as [D3 V3];
    [Z.div_mod_to_equations; lia|].
  destruct (digit_char_is_digit (y mod 100 mod 10)) as [D4 V4];
    [Z.div_mod_to_equations; lia|].
  rewrite D1, D2, D3, D4, V1, V2, V3, V4.
  cbn [andb flat_map Strptime.dash app].
  change (PyStr.code "-" =? 45) with true. cbv iota.
  cbn [flat_map app]. rewrite !app_nil_r.
  assert (E : 1000 * (y / 1000) + 100 * (y / 100 mod 10)
              + 10 * (y mod 100 / 10) + y mod 100 mod 10 = y).
  { Z.div_mod_to_equations. lia. }
  rewrite E. reflexivity.
Qed.

Ltac month_cases m :=
  let H := fresh "Hm" in
  assert (H : m = 1 \/ m = 2 \/ m = 3 \/ m = 4 \/ m = 5 \/ m = 6 \/ m = 7
              \/ m = 8 \/ m = 9 \/ m = 10 \/ m = 11 \/ m = 12) by lia;
  repeat destruct H as [H|H]; subst m.

Ltac day_cases d :=
  let H := fresh "Hd" in
  assert (H : (d = 1 \/ d = 2 \/ d = 3 \/ d = 4 \/ d = 5 \/ d = 6 \/ d = 7
               \/ d = 8 \/ d = 9 \/ d = 10)
              \/ (d = 11 \/ d = 12 \/ d = 13 \/ d = 14 \/ d = 15 \/ d = 16
                  \/ d = 17 \/ d = 18 \/ d = 19 \/ d = 20)
              \/ (d = 21 \/ d = 22 \/ d = 23 \/ d = 24 \/ d = 25 \/ d = 26
                  \/ d = 27 \/ d = 28 \/ d = 29 \/ d = 30 \/ d = 31)) by lia;
  repeat destruct H as [H|H]; subst d.

Lemma month_day_short_read_back m d :
  1 <= m <= 12 -> 1 <= d <= 31 ->
  exists rest,
    Strptime.matches_m_d (PyStr.of_nonneg m ++ "-" ++ PyStr.of_nonneg d)
    = (m, d, "") :: rest.
Proof.
  intros Hm Hd. month_cases m; day_cases d; eexists; vm_compute; reflexivity.
Qed.

Lemma month_day_then_more m d c t :
  1 <= m <= 12 -> 1 <= d <= 31 ->
  exists rest,
    Strptime.matches_m_d (pad2 m ++ "-" ++ pad2 d ++ String c t)
    = (m, d, String c t) :: rest.
Proof.
  intros Hm Hd. month_cases m; day_cases d; eexists; cbv; reflexivity.
Qed.

Lemma bad_start_date_is_400 (ev : event) (en : env) (st : state) sd x :
  unix_clock en ->
  dict_get "start_date" (params_of ev) = Some sd ->
  strptime sd = Raised x ->
  lambda_handler ev en st
  = (Returned (HttpResponse 400 None (error_body ("Invalid date: " ++ exn_str x))),
     State (S (S (clock_reads st))) (ce_calls st) (table_calls st)).
Proof.
  intros Hc Hs Hx.
  destruct (unix_era_yesterday _ (Hc (S (clock_reads st)))) as (Hy & _ & _).
  pose proof (parse_and_validate_run (params_of ev) en st) as Hrun.
  cbv zeta in Hrun. rewrite Hy in Hrun.
  unfold dict_get_default in Hrun at 1. rewrite Hs, Hx in Hrun.
  rewrite (lambda_handler_rejected _ _ _ _ _ Hrun).
  now rewrite (strptime_raises_ValueError _ _ Hx).
Qed.

(** X11. Validation accepts a month and a day written without a leading
    zero: for two calendar dates in order, given in that form, both parse
    and validation returns the two texts as they were given. *)
Theorem validation_accepts_dates_without_leading_zeros (ev : event) (en : env)
  (st : state) (a b : date) :
  unix_clock en ->
  valid_date a = true -> valid_date b = true ->
  toordinal a <= toordinal b ->
  dict_get "start_date" (params_of ev) = Some (short_date a) ->
  dict_get "end_date" (params_of ev) = Some (short_date b) ->
  strptime (short_date a) = Returned a
  /\ strptime (short_date b) = Returned b
  /\ parse_and_validate (params_of ev) en st
     = (Returned (short_date a, short_date b),
        State (S (S (clock_reads st))) (ce_calls st) (table_calls st)).
Proof.
  intros Hc Ha Hb Hle Hs He.
  assert (Hshort : forall d, valid_date d = true -> strptime (short_date d) = Returned d).
  { intros d Hv. pose proof (valid_date_bounds d Hv) as (Hy & Hm & Hd).
    pose proof (days_in_month_at_most_31 (year d) (month d)) as H31.
    destruct (month_day_short_read_back (month d) (day d) Hm ltac:(lia))
      as (rest & Hmd).
    unfold strptime, Strptime.strptime, short_date.
    rewrite matches_after_year by lia. rewrite Hmd. cbn [map].
    unfold datetime_date, MINYEAR, MAXYEAR.
    destruct (Z.ltb_spec (year d) 1); [lia|].
    destruct (Z.ltb_spec 9999 (year d)); [lia|].
    destruct (Z.ltb_spec (month d) 1); [lia|].
    destruct (Z.ltb_spec 12 (month d)); [lia|].
    destruct (Z.ltb_spec (day d) 1); [lia|].
    destruct (Z.ltb_spec (days_in_month (year d) (month d)) (day d)); [lia|].
    cbn. now destruct d. }
  split; [now apply Hshort|]. split; [now apply Hshort|].
  destruct (unix_era_yesterday _ (Hc (S (clock_reads st)))) as (Hy & _ & _).
  rewrite parse_and_validate_run. cbv zeta. rewrite Hy.
  unfold dict_get_default. rewrite Hs, He.
  rewrite (Hshort a Ha), (Hshort b Hb), (date_gt_ltb a b Ha Hb).
  destruct (Z.ltb_spec (toordinal b) (toordinal a)); [lia|reflexivity].
Qed.

(** X12. A start date with anything after the day (a time of day, say) is
    answered with 400 [unconverted data remains: ...], and a start date whose
    day its month does not have with 400 [day is out of range for month];
    no query is sent. *)
Theorem malformed_start_dates_are_400 (ev : event) (en : env) (st : state) :
  unix_clock en ->
  let rejected_with msg :=
    lambda_handler ev en st
    = (Returned (HttpResponse 400 None (error_body ("Invalid date: " ++ msg))),
       State (S (S (clock_reads st))) (ce_calls st) (table_calls st)) in
  (forall d c more,
      valid_date d = true ->
      dict_get "start_date" (params_of ev) = Some (strftime d ++ String c more) ->
      rejected_with ("unconverted data remains: " ++ String c more))
  /\ (forall y m d,
        1 <= y <= 9999 -> 1 <= m <= 12 -> days_in_month y m < d <= 31 ->
        dict_get "start_date" (params_of ev) = Some (strftime (Date y m d)) ->
        rejected_with "day is out of range for month").
Proof.
  intros Hc rejected_with. subst rejected_with. cbv beta. split.
  - intros d c more Hv Hs.
    pose proof (valid_date_bounds d Hv) as (Hy & Hm & Hd).
    pose proof (days_in_month_at_most_31 (year d) (month d)) as H31.
    destruct (month_day_then_more (month d) (day d) c more Hm ltac:(lia))
      as (rest & Hmd).
    assert (Hx : strptime (strftime d ++ String c more)
                 = Raised (Exn ValueError
                             ("unconverted data remains: " ++ String c more))).
    { unfold strptime, Strptime.strptime, strftime.
      rewrite !string_app_assoc.
      rewrite matches_after_year by lia.
      rewrite Hmd. reflexivity. }
    rewrite (bad_start_date_is_400 ev en st _ _ Hc Hs Hx). reflexivity.
  - intros y m d Hy Hm Hd Hs.
    assert (H1 : 1 <= days_in_month y m).
    { unfold days_in_month.
      repeat match goal with |- context [if ?b then _ else _] => destruct b end;
        lia. }
    destruct (month_day_read_back m d Hm ltac:(lia)) as (rest & Hmd).
    assert (Hx : strptime (strftime (Date y m d))
                 = Raised (Exn ValueError "day is out of range for month")).
    { unfold strptime, Strptime.strptime, strftime. cbn [year month day].
      rewrite matches_after_year by lia. rewrite Hmd. cbn [map].
      unfold datetime_date, MINYEAR, MAXYEAR.
      destruct (Z.ltb_spec y 1); [lia|].
      destruct (Z.ltb_spec 9999 y); [lia|].
      destruct (Z.ltb_spec m 1); [lia|].
      destruct (Z.ltb_spec 12 m); [lia|].
      destruct (Z.ltb_spec d 1); [lia|].
      destruct (Z.ltb_spec (days_in_month y m) d); [|lia].
      reflexivity. }
    rewrite (bad_start_date_is_400 ev en st _ _ Hc Hs Hx). reflexivity.
Qed.

(** ** The further properties at concrete inputs *)

Lemma defaults_are_rejected_on_the_first_of_a_month_witness :
  fst (lambda_handler (Event Absent) (Env april_1 None (answering None)) initial)
  = Returned (HttpResponse 400 None
                (error_body "Invalid date: start_date must be before end_date")).
Proof.
  rewrite (defaults_are_rejected_on_the_first_of_a_month (Event Absent)
             (Env april_1 None (answering None)) initial
             (fun _ => eq_refl) eq_refl eq_refl eq_refl eq_refl eq_refl).
  reflexivity.
Defined.

Lemma defaults_are_accepted_after_the_first_witness :
  fst (parse_and_validate [] (Env march_15 None (answering None)) initial)
  = Returned ("2025-03-01", "2025-03-14").
Proof.
  destruct (defaults_are_accepted_after_the_first (Event Absent)
              (Env march_15 None (answering None)) initial
              (fun _ => eq_refl) eq_refl eq_refl eq_refl eq_refl eq_refl)
    as [H _].
  exact H.
Defined.

Lemma failures_after_validation_are_500_witness :
  fst (lambda_handler (Event (Mapping march_request))
         (Env march_15 None
            (answering (Some (Response [ResultByTime [Group ["EC2"] "n/a"]]))))
         initial)
  = Returned (HttpResponse 500 None
                (error_body "could not convert string to float: 'n/a'")).
Proof.
  destruct (failures_after_validation_are_500 (Event (Mapping march_request))
              (Env march_15 None
                 (answering (Some (Response [ResultByTime [Group ["EC2"] "n/a"]]))))
              initial (State 2 [] []) "2025-03-01" "2025-03-31"
              ltac:(vm_compute; reflexivity))
    as [_ H].
  destruct (H (Some (Response [ResultByTime [Group ["EC2"] "n/a"]]))
              (Exn ValueError "could not convert string to float: 'n/a'")
              eq_refl eq_refl ltac:(vm_compute; reflexivity))
    as [Hrun _].
  rewrite Hrun. reflexivity.
Defined.

Lemma normalize_stops_at_the_first_bad_group_witness :
  normalize (Some (Response [ResultByTime [Group ["S3"] "1.2"; Group [] "3"];
                             ResultByTime [Group ["EC2"] "n/a"]]))
  = Raised (Exn IndexError "list index out of range").
Proof.
  destruct (normalize_stops_at_the_first_bad_group
              (Response [ResultByTime [Group ["S3"] "1.2"; Group [] "3"];
                         ResultByTime [Group ["EC2"] "n/a"]]))
    as [H _].
  apply H. exists [Group ["S3"] "1.2"], (Group [] "3"), [Group ["EC2"] "n/a"].
  split; [reflexivity|]. split; [eexists; vm_compute; reflexivity|].
  left. split; reflexivity.
Defined.

Lemma data_responses_witness :
  fst (lambda_handler (Event (Mapping march_request))
         (Env march_15 None (answering (Some two_groups))) initial)
  = Returned (HttpResponse 200 text_plain
                (format_table [Rec "EC2" (usd 1235); Rec "S3" (usd 120)])).
Proof.
  rewrite (data_responses (Event (Mapping march_request))
             (Env march_15 None (answering (Some two_groups)))
             initial (State 2 [] [])
             (State 2 [monthly_query "2025-03-01" "2025-03-31" None] [])
             "2025-03-01" "2025-03-31" (Some two_groups)
             [Rec "EC2" (usd 1235); Rec "S3" (usd 120)]
             ltac:(vm_compute; reflexivity) ltac:(vm_compute; reflexivity)
             ltac:(vm_compute; reflexivity) ltac:(discriminate)).
  reflexivity.
Defined.

Lemma build_filters_ignores_other_parameters_witness :
  build_filters [("services", "EC2,S3"); ("tag_env", "prod")]
  = build_filters filtered_request.
Proof.
  assert (Hd : is_dict filtered_request).
  { unfold is_dict, filtered_request. cbn [map fst].
    repeat constructor; cbn [In]; intuition discriminate. }
  rewrite <- (build_filters_ignores_other_parameters filtered_request Hd).
  reflexivity.
Defined.

Lemma build_filters_result_is_well_formed_witness :
  well_formed_filter (And [Dimensions "SERVICE" ["EC2"; "S3"]; Tags "env" ["prod"]]).
Proof.
  assert (Hd : is_dict filtered_request).
  { unfold is_dict, filtered_request. cbn [map fst].
    repeat constructor; cbn [In]; intuition discriminate. }
  exact (build_filters_result_is_well_formed filtered_request Hd).
Defined.

Lemma table_lines_have_one_width_witness :
  Forall (fun line => PyStr.len line = 30%nat)
    (tl (table_lines [Rec "S3" (usd 120); Rec "Amazon EC2" (usd 123456789012)])).
Proof.
  destruct (table_lines_have_one_width
              [Rec "S3" (usd 120); Rec "Amazon EC2" (usd 123456789012)]
              ltac:(discriminate))
    as (_ & H & _).
  exact H.
Defined.

Lemma validation_accepts_dates_without_leading_zeros_witness :
  parse_and_validate short_march_request (Env march_15 None (answering None)) initial
  = (Returned ("2025-3-1", "2025-3-31"), State 2 [] []).
Proof.
  destruct (validation_accepts_dates_without_leading_zeros
              (Event (Mapping short_march_request))
              (Env march_15 None (answering None)) initial
              (Date 2025 3 1) (Date 2025 3 31)
              (fun _ => eq_refl) eq_refl eq_refl
              ltac:(vm_compute; discriminate) eq_refl eq_refl)
    as (_ & _ & H).
  exact H.
Defined.

Lemma malformed_start_dates_are_400_witness :
  fst (lambda_handler (Event (Mapping timestamp_request))
         (Env march_15 None (answering None)) initial)
  = Returned (HttpResponse 400 None
                (error_body "Invalid date: unconverted data remains: T00:00:00")).
Proof.
  destruct (malformed_start_dates_are_400 (Event (Mapping timestamp_request))
              (Env march_15 None (answering None)) initial (fun _ => eq_refl))
    as [H _].
  rewrite (H (Date 2025 3 1) "T"%char "00:00:00" eq_refl eq_refl).
  reflexivity.
Defined.
